(** * Availability resolution and UI reconciliation of the embedded chat page

    A shallow embedding of the page script that decides whether the hosted
    chat button or the offline ("Leave a Message") affordance is shown.
    The script is event driven: business-hours events, the messaging-ready
    event with its API polling chain, the button-created event and the
    session-status events all mutate a handful of script variables and
    then call [updateChatAvailability].

    Embedded functions, with the document of the repository they are
    taken from:
    - [setBusinessHours] and the three business-hours listeners:
      UNDEFINED_BUSINESS_HOURS_FIX.md (Leave a Message Button Fix);
    - the [onEmbeddedMessagingReady] listener and [tryApiCheck]:
      API_POLLING_ENHANCEMENT.md, with the reset of the demotion flag
      that SESSION_SUMMARY_2025-11-02.md (Reset Behavior) shows in the
      same listener;
    - [updateChatAvailability], the session-status patterns and the
      variable defaults: SESSION_SUMMARY_2025-11-02.md (Agent Availability
      Detection);
    - [showChatButton] and the [onEmbeddedMessagingButtonCreated]
      listener: the "Chat Button Not Showing" fix note. *)

From Stdlib Require Import ZArith List String Bool Lia.
Import ListNotations.
Local Open Scope string_scope.
Local Open Scope Z_scope.

(** ** JavaScript values *)

(** The values the script inspects dynamically: the payload of the
    business-hours event, the result of the availability API and the
    fields of the session-status payload. *)
Inductive jsval : Type :=
| JUndefined
| JNull
| JBool (b : bool)
| JNum (n : Z)
| JStr (s : string)
| JObj.

(** [typeof v === 'boolean'] *)
Definition is_boolean (v : jsval) : bool :=
  match v with
  | JBool _ => true
  | _ => false
  end.

(** Truthiness, as used by [if (v)], [!v] and [a && b]. *)
Definition truthy (v : jsval) : bool :=
  match v with
  | JUndefined | JNull => false
  | JBool b => b
  | JNum n => negb (Z.eqb n 0)
  | JStr s => negb (String.eqb s "")
  | JObj => true
  end.

(** [v === 'lit'] for a string literal. *)
Definition strict_eq_str (v : jsval) (lit : string) : bool :=
  match v with
  | JStr s => String.eqb s lit
  | _ => false
  end.

(** [v === false] *)
Definition strict_eq_false (v : jsval) : bool :=
  match v with
  | JBool false => true
  | _ => false
  end.

(** ** The page: script variables, widget and clock *)

(** State of the hosted chat widget as the script can observe it.
    [NoUtilAPI]: [embeddedservice_bootstrap] or its [utilAPI] is still
    undefined.  [NoButton raises]: the API object exists but the button
    element has not been created; the hosted method then either does
    nothing ([raises = false]) or raises ([raises = true]).
    [Button visible]: the button exists. *)
Inductive Widget : Type :=
| NoUtilAPI
| NoButton (raises : bool)
| Button (visible : bool).

Record Page : Type := mkPage {
  widget : Widget;
  offlineShown : bool;
  offlineMessage : option string
}.

(** The script variables.
    [let businessHoursValue = null; let businessHoursSource = null;
     let isWithinBusinessHours = true; let noAgentsAvailable = false;]
    [sessionWaitingStartTime] is read by the waiting pattern; the
    documents never show its assignment, so it is an arbitrary
    timestamp of the state. *)
Record Globals : Type := mkGlobals {
  businessHoursValue : option bool;
  businessHoursSource : option string;
  isWithinBusinessHours : jsval;
  noAgentsAvailable : bool;
  sessionWaitingStartTime : Z
}.

(** A pending [setTimeout(tryApiCheck, d)]: the time at which it is
    due and the value of the closure variable [attemptCount] of the
    polling chain it belongs to. *)
Record Timer : Type := mkTimer {
  due : Z;
  attempts : nat
}.

(** [now] is what [Date.now()] returns; [probeLog] records, newest
    first, the times at which the availability API was queried. *)
Record World : Type := mkWorld {
  vars : Globals;
  page : Page;
  now : Z;
  timers : list Timer;
  probeLog : list Z
}.

Definition with_vars (f : Globals -> Globals) (w : World) : World :=
  mkWorld (f (vars w)) (page w) (now w) (timers w) (probeLog w).

Definition with_page (f : Page -> Page) (w : World) : World :=
  mkWorld (vars w) (f (page w)) (now w) (timers w) (probeLog w).

Definition with_now (t : Z) (w : World) : World :=
  mkWorld (vars w) (page w) t (timers w) (probeLog w).

Definition with_timers (f : list Timer -> list Timer) (w : World) : World :=
  mkWorld (vars w) (page w) (now w) (f (timers w)) (probeLog w).

Definition log_probe (w : World) : World :=
  mkWorld (vars w) (page w) (now w) (timers w) (now w :: probeLog w).

Definition set_widget (x : Widget) (p : Page) : Page :=
  mkPage x (offlineShown p) (offlineMessage p).

Definition set_offlineShown (b : bool) (p : Page) : Page :=
  mkPage (widget p) b (offlineMessage p).

Definition set_offlineMessage (m : string) (p : Page) : Page :=
  mkPage (widget p) (offlineShown p) (Some m).

Definition set_resolved (value : bool) (source : string) (g : Globals) : Globals :=
  mkGlobals (Some value) (Some source) (JBool value)
            (noAgentsAvailable g) (sessionWaitingStartTime g).

Definition set_noAgentsAvailable (b : bool) (g : Globals) : Globals :=
  mkGlobals (businessHoursValue g) (businessHoursSource g)
            (isWithinBusinessHours g) b (sessionWaitingStartTime g).

(** The chat button is on screen. *)
Definition chatShown (w : World) : bool :=
  match widget (page w) with
  | Button visible => visible
  | _ => false
  end.

(** The offline affordance is on screen. *)
Definition offlineVisible (w : World) : bool := offlineShown (page w).

(** Script variables at page load. *)
Definition initial_vars (waitingStart : Z) : Globals :=
  mkGlobals None None (JBool true) false waitingStart.

Definition initial_world (waitingStart t0 : Z) (p : Page) : World :=
  mkWorld (initial_vars waitingStart) p t0 [] [].

(** ** Statements with side effects and exceptions *)

(** A JavaScript statement either completes or throws; in both cases
    the assignments it performed before remain. *)
Inductive outcome (A : Type) : Type :=
| Normal (a : A)
| Thrown.
Arguments Normal {A} a.
Arguments Thrown {A}.

Definition JS (A : Type) : Type := World -> outcome A * World.

Definition ret {A} (a : A) : JS A := fun w => (Normal a, w).

Definition throw {A} : JS A := fun w => (Thrown, w).

Definition bind {A B} (c : JS A) (k : A -> JS B) : JS B :=
  fun w =>
    match c w with
    | (Normal a, w') => k a w'
    | (Thrown, w') => (Thrown, w')
    end.

(** [try { c } catch (e) { h }] *)
Definition try_catch {A} (c : JS A) (h : JS A) : JS A :=
  fun w =>
    match c w with
    | (Normal a, w') => (Normal a, w')
    | (Thrown, w') => h w'
    end.

Definition get : JS World := fun w => (Normal w, w).

Definition modify (f : World -> World) : JS unit := fun w => (Normal tt, f w).

Declare Scope js_scope.
Delimit Scope js_scope with js.
Notation "x <- c ;; k" := (bind c (fun x => k))
  (at level 61, c at next level, right associativity) : js_scope.
Notation "c ;; k" := (bind c (fun _ => k))
  (at level 61, right associativity) : js_scope.
Local Open Scope js_scope.

(** The world a statement leaves behind, whether it threw or not. *)
Definition exec {A} (c : JS A) (w : World) : World := snd (c w).

(** The statement completed without throwing. *)
Definition completes {A} (c : JS A) (w : World) : Prop :=
  exists a, fst (c w) = Normal a.

(** ** Renderer *)

(** The hosted methods [embeddedservice_bootstrap.utilAPI.showChatButton()]
    and [hideChatButton()], called without any guard. *)
Definition utilAPI_toggle (visible : bool) : JS unit :=
  fun w =>
    match widget (page w) with
    | NoUtilAPI => (Thrown, w)
    | NoButton raises => if raises then (Thrown, w) else (Normal tt, w)
    | Button _ => (Normal tt, with_page (set_widget (Button visible)) w)
    end.

(** [typeof embeddedservice_bootstrap !== 'undefined' &&
     embeddedservice_bootstrap.utilAPI] *)
Definition utilAPI_available (w : World) : bool :=
  match widget (page w) with
  | NoUtilAPI => false
  | _ => true
  end.

(** [function showChatButton()]: calls the hosted method when the API
    object exists, otherwise only logs a warning. *)
Definition showChatButton : JS unit :=
  w <- get ;;
  if utilAPI_available w then utilAPI_toggle true else ret tt.

(** Modelled from the spec: [hideChatButton] is not shown in the
    repository; the fix note states that it received the same guard and
    warning as [showChatButton], and the spec lists it as the sibling
    hide call of the chat affordance. *)
Definition hideChatButton : JS unit :=
  w <- get ;;
  if utilAPI_available w then utilAPI_toggle false else ret tt.

(** Modelled from the spec: [showOfflineForm] and [hideOfflineForm] are
    called by [updateChatAvailability] but their bodies are not shown;
    the spec describes them as the show and hide calls of the offline
    affordance, an element of the static page. *)
Definition showOfflineForm : JS unit :=
  modify (with_page (set_offlineShown true)).

Definition hideOfflineForm : JS unit :=
  modify (with_page (set_offlineShown false)).

(** Modelled from the spec: [updateOfflineFormMessage] only replaces
    the text of the offline affordance. *)
Definition updateOfflineFormMessage (m : string) : JS unit :=
  modify (with_page (set_offlineMessage m)).

(** [function updateChatAvailability(reason = null)] *)
Definition updateChatAvailability (reason : jsval) : JS unit :=
  w <- get ;;
  if truthy (isWithinBusinessHours (vars w)) && negb (noAgentsAvailable (vars w))
  then
    showChatButton ;;
    hideOfflineForm
  else
    hideChatButton ;;
    showOfflineForm ;;
    if noAgentsAvailable (vars w) && truthy reason
    then updateOfflineFormMessage "All agents are currently assisting other customers."
    else ret tt.

(** ** Resolver *)

(** [function setBusinessHours(value, source)] *)
Definition setBusinessHours (value : jsval) (source : string) : JS bool :=
  match value with
  | JBool b =>
      modify (with_vars (set_resolved b source)) ;;
      updateChatAvailability (JStr source) ;;
      ret true
  | _ => ret false
  end.

(** [window.addEventListener('onEmbeddedMessagingWithinBusinessHours', ...)]:
    [detail] is [None] when [event.detail] is missing, so that
    [event.detail?.withinBusinessHours] is [undefined]. *)
Definition onEmbeddedMessagingWithinBusinessHours (detail : option jsval) : JS unit :=
  let value := match detail with
               | Some v => v
               | None => JUndefined
               end in
  _ <- setBusinessHours value "event" ;;
  ret tt.

Definition onEmbeddedMessagingBusinessHoursStarted : JS unit :=
  _ <- setBusinessHours (JBool true) "hours_started_event" ;;
  ret tt.

Definition onEmbeddedMessagingBusinessHoursEnded : JS unit :=
  _ <- setBusinessHours (JBool false) "hours_ended_event" ;;
  ret tt.

(** [window.addEventListener('onEmbeddedMessagingButtonCreated', ...)] *)
Definition onEmbeddedMessagingButtonCreated : JS unit :=
  updateChatAvailability (JStr "button_created").

(** ** Reactive failure monitor *)

Record RoutingResult : Type := mkRoutingResult {
  agentsAvailable : jsval;
  success : jsval
}.

(** [event.detail] of a session-status update; [routingResult] is
    [None] when the field is missing or falsy. *)
Record SessionDetail : Type := mkSessionDetail {
  status : jsval;
  reason : jsval;
  routingResult : option RoutingResult;
  agentInfo : jsval
}.

(** Pattern 1: explicit reason field. *)
Definition pattern_reason (d : SessionDetail) : bool :=
  strict_eq_str (status d) "Ended" && strict_eq_str (reason d) "NoAgentsAvailable".

(** Pattern 2: routing result check. *)
Definition pattern_routing (d : SessionDetail) : bool :=
  strict_eq_str (status d) "Ended" &&
  match routingResult d with
  | Some r => strict_eq_false (agentsAvailable r) || strict_eq_false (success r)
  | None => false
  end.

(** Pattern 3: waiting timeout,
    [Date.now() - sessionWaitingStartTime > 60000]. *)
Definition pattern_waiting (w : World) (d : SessionDetail) : bool :=
  strict_eq_str (status d) "Waiting" &&
  (60000 <? now w - sessionWaitingStartTime (vars w)).

(** Pattern 4: ended without agent. *)
Definition pattern_no_agent (d : SessionDetail) : bool :=
  strict_eq_str (status d) "Ended" && negb (truthy (agentInfo d)).

Definition when (b : bool) (c : JS unit) : JS unit :=
  if b then c else ret tt.

(** The session-status listener: the four detection patterns in the
    order of the document, then the reset on an active session. *)
Definition onEmbeddedMessagingSessionStatusUpdate (d : SessionDetail) : JS unit :=
  w <- get ;;
  when (pattern_reason d) (modify (with_vars (set_noAgentsAvailable true))) ;;
  when (pattern_routing d) (modify (with_vars (set_noAgentsAvailable true))) ;;
  when (pattern_waiting w d) (modify (with_vars (set_noAgentsAvailable true))) ;;
  when (pattern_no_agent d) (modify (with_vars (set_noAgentsAvailable true))) ;;
  when (strict_eq_str (status d) "Active")
       (modify (with_vars (set_noAgentsAvailable false))).

(** ** Probe scheduler *)

Definition maxAttempts : nat := 5.

Definition delays : list Z := [1000; 2000; 3000; 4000; 5000].

(** Timers are kept ordered by due time, the earlier registration first
    among equal due times. *)
Fixpoint insert_timer (t : Timer) (ts : list Timer) : list Timer :=
  match ts with
  | [] => [t]
  | u :: rest =>
      if due t <? due u then t :: u :: rest else u :: insert_timer t rest
  end.

(** [setTimeout(tryApiCheck, delay)] issued by a chain whose
    [attemptCount] is [attemptCount]. *)
Definition setTimeout_tryApiCheck (attemptCount : nat) (delay : Z) : JS unit :=
  modify (fun w => with_timers (insert_timer (mkTimer (now w + delay) attemptCount)) w).

Section Script.

(** The hosted availability API: the outcome of evaluating
    [embeddedservice_bootstrap.utilAPI?.isWithinBusinessHours?.()]
    the [n]-th time it is evaluated on this page (counting from 0). *)
Variable api : nat -> outcome jsval.

Definition call_isWithinBusinessHours : JS jsval :=
  fun w => (api (List.length (probeLog w)), log_probe w).

(** [function tryApiCheck()], run with the current value of the
    closure variable [attemptCount]. *)
Definition tryApiCheck (attemptCount : nat) : JS unit :=
  w <- get ;;
  match businessHoursValue (vars w) with
  | Some _ => ret tt
  | None =>
      let attemptCount := S attemptCount in
      stop <- try_catch
                (apiValue <- call_isWithinBusinessHours ;;
                 setBusinessHours apiValue "api")
                (ret false) ;;
      if stop then ret tt
      else if (attemptCount <? maxAttempts)%nat
           then setTimeout_tryApiCheck attemptCount (nth attemptCount delays 0)
           else _ <- setBusinessHours (JBool true) "default_fallback" ;;
                ret tt
  end.

(** [window.addEventListener('onEmbeddedMessagingReady', ...)]: the
    listener first resets the demotion flag ("Messaging Ready -
    resetting agent availability", [noAgentsAvailable = false], without
    a render), then starts the polling chain unless the business hours
    are already determined. *)
Definition onEmbeddedMessagingReady : JS unit :=
  modify (with_vars (set_noAgentsAvailable false)) ;;
  w <- get ;;
  match businessHoursValue (vars w) with
  | Some _ => ret tt
  | None => setTimeout_tryApiCheck 0 (nth 0 delays 0)
  end.

(** ** Event loop *)

Inductive Event : Type :=
| WithinBusinessHours (detail : option jsval)
| BusinessHoursStarted
| BusinessHoursEnded
| MessagingReady
| ButtonCreated
| SessionStatusUpdate (d : SessionDetail).

Definition handle (e : Event) : JS unit :=
  match e with
  | WithinBusinessHours detail => onEmbeddedMessagingWithinBusinessHours detail
  | BusinessHoursStarted => onEmbeddedMessagingBusinessHoursStarted
  | BusinessHoursEnded => onEmbeddedMessagingBusinessHoursEnded
  | MessagingReady => onEmbeddedMessagingReady
  | ButtonCreated => onEmbeddedMessagingButtonCreated
  | SessionStatusUpdate d => onEmbeddedMessagingSessionStatusUpdate d
  end.

(** One turn of the event loop.  [Deliver t e]: the listener of [e]
    runs while the clock reads [t].  [Fire]: the earliest pending
    timer fires at its due time.  [Hosted x]: the hosted widget
    changes by itself (the API object appears, the button is created).
    An exception that escapes a listener or a timer callback ends
    that turn only. *)
Inductive Step : Type :=
| Deliver (t : Z) (e : Event)
| Fire
| Hosted (x : Widget).

Definition step (w : World) (s : Step) : World :=
  match s with
  | Deliver t e => exec (handle e) (with_now t w)
  | Fire =>
      match timers w with
      | [] => w
      | t :: rest =>
          exec (tryApiCheck (attempts t))
               (with_now (due t) (with_timers (fun _ => rest) w))
      end
  | Hosted x => with_page (set_widget x) w
  end.

Definition run (steps : list Step) (w : World) : World :=
  fold_left step steps w.

End Script.


(** ** Reference schedule and sample pages *)

(** Times at which the timers of one polling chain started at [t] come
    due when every delay of [ds] is waited in turn. *)
Fixpoint cumulative (t : Z) (ds : list Z) : list Z :=
  match ds with
  | [] => []
  | d :: rest => (t + d) :: cumulative (t + d) rest
  end.

(** The widget API is not loaded yet. *)
Definition page_loading : Page := mkPage NoUtilAPI false None.

(** The API object exists, the button element does not, and the hosted
    toggle raises when asked to act on it. *)
Definition page_api_without_button : Page := mkPage (NoButton true) false None.

(** The button has just been created and is still hidden. *)
Definition page_button_ready : Page := mkPage (Button false) false None.

(** A session-status payload that carries nothing but its status. *)
Definition bare_status (s : string) : SessionDetail :=
  mkSessionDetail (JStr s) JUndefined None JUndefined.

(** An availability API that answers [undefined] every time. *)
Definition api_undefined : nat -> outcome jsval := fun _ => Normal JUndefined.

(** An availability API that answers [undefined] twice and [true]
    from the third query on. *)
Definition api_true_on_third : nat -> outcome jsval :=
  fun n => if (n <? 2)%nat then Normal JUndefined else Normal (JBool true).

(** An availability API that raises every time. *)
Definition api_raising : nat -> outcome jsval := fun _ => Thrown.

(** The Resolved State of the page: value and provenance. *)
Definition resolved (w : World) : option bool * option string :=
  (businessHoursValue (vars w), businessHoursSource (vars w)).

(** The availability variable agrees with the Resolved State: it holds
    the resolved boolean, or its default [true] while unresolved. *)
Definition coherent (w : World) : Prop :=
  isWithinBusinessHours (vars w) =
  JBool match businessHoursValue (vars w) with
        | Some a => a
        | None => true
        end.

(** The API answer is not a strict boolean, or the call raised. *)
Definition probe_fails (r : outcome jsval) : bool :=
  match r with
  | Normal v => negb (is_boolean v)
  | Thrown => true
  end.

(** A turn of the event loop that cannot resolve the business hours:
    any turn other than a timer, a messaging-ready event, a transition
    event or a snapshot event carrying a boolean. *)
Definition push_free (s : Step) : bool :=
  match s with
  | Deliver _ (WithinBusinessHours (Some v)) => negb (is_boolean v)
  | Deliver _ (WithinBusinessHours None) => true
  | Deliver _ ButtonCreated => true
  | Deliver _ (SessionStatusUpdate _) => true
  | Deliver _ _ => false
  | Fire => false
  | Hosted _ => true
  end.

(** A turn other than the messaging-ready event. *)
Definition not_ready (s : Step) : bool :=
  match s with
  | Deliver _ MessagingReady => false
  | _ => true
  end.

Definition is_fire (s : Step) : bool :=
  match s with
  | Fire => true
  | _ => false
  end.

(** Number of timer turns in a schedule. *)
Definition fired (steps : list Step) : nat :=
  List.length (filter is_fire steps).

(** A statement keeps a property of the page state, whether it
    completes or throws. *)
Definition preserves (P : World -> Prop) {A} (c : JS A) : Prop :=
  forall w, P w -> P (exec c w).

(** State of one polling chain started at [t0]: [n] queries were made,
    at the first [n] times of the schedule, and at most one timer is
    pending, the one of the next attempt. *)
Definition chain_invariant (t0 : Z) (w : World) : Prop :=
  exists n,
    (n <= maxAttempts)%nat /\
    rev (probeLog w) = firstn n (cumulative t0 delays) /\
    (timers w = [] \/
     ((n < maxAttempts)%nat /\
      timers w = [mkTimer (nth n (cumulative t0 delays) 0) n])).

(** State of a chain started at [t0] all of whose [n] attempts so far
    failed, without any resolving event in between. *)
Definition failing_chain (t0 : Z) (n : nat) (w : World) : Prop :=
  ((n < maxAttempts)%nat ->
   businessHoursValue (vars w) = None /\
   timers w = [mkTimer (nth n (cumulative t0 delays) 0) n] /\
   rev (probeLog w) = firstn n (cumulative t0 delays)) /\
  ((maxAttempts <= n)%nat ->
   resolved w = (Some true, Some "default_fallback") /\
   isWithinBusinessHours (vars w) = JBool true /\
   timers w = [] /\
   rev (probeLog w) = cumulative t0 delays).

(** ** Further vocabulary for the resolver *)

(** The value and source pairs the script passes to [setBusinessHours]:
    the snapshot listener and the API check pass whatever boolean they
    received, the transition listeners and the fallback a fixed one. *)
Definition signal_pair (b : bool) (s : string) : Prop :=
  s = "event" \/ s = "api" \/
  (s = "hours_started_event" /\ b = true) \/
  (s = "hours_ended_event" /\ b = false) \/
  (s = "default_fallback" /\ b = true).

(** The Resolved State is unset, or it is one of the pairs above. *)
Definition tracked_source (g : Globals) : Prop :=
  match businessHoursValue g, businessHoursSource g with
  | None, None => True
  | Some b, Some s => signal_pair b s
  | _, _ => False
  end.

Definition is_session_update (s : Step) : bool :=
  match s with
  | Deliver _ (SessionStatusUpdate _) => true
  | _ => false
  end.

(** State of a polling chain after [n] timer turns, whatever the API
    answered: while the Resolved State is unset, exactly the timer of
    attempt [n + 1] is pending. *)
Definition chain_pending (n : nat) (w : World) : Prop :=
  businessHoursValue (vars w) = None ->
  (n < maxAttempts)%nat /\ exists d, timers w = [mkTimer d n].

(** A property of the script variables, read on a page state. *)
Definition on_vars (Q : Globals -> Prop) (w : World) : Prop := Q (vars w).

(** ** Further vocabulary for the renderer and the scheduler *)

(** The widget has created its chat button. *)
Definition has_button (p : Page) : bool :=
  match widget p with
  | Button _ => true
  | _ => false
  end.

(** The messaging-ready event. *)
Definition is_ready (s : Step) : bool := negb (not_ready s).

(** Number of messaging-ready events in a schedule. *)
Definition ready_count (steps : list Step) : nat :=
  List.length (filter is_ready steps).

(** Attempts the polling chains of the pending timers can still make:
    a chain whose [attemptCount] is [k] queries at most
    [maxAttempts - k] more times. *)
Fixpoint attempts_left (ts : list Timer) : nat :=
  match ts with
  | [] => 0
  | t :: rest => (maxAttempts - attempts t) + attempts_left rest
  end.

(** Queries made so far, plus those the pending timers can still make. *)
Definition probe_budget (w : World) : nat :=
  List.length (probeLog w) + attempts_left (timers w).

(** Every pending timer belongs to a chain that has attempts left. *)
Definition timers_live (w : World) : Prop :=
  Forall (fun t => (attempts t < maxAttempts)%nat) (timers w).


(** ** Earlier revisions of the business-hours code *)

(** [isWithinBusinessHours = v], the only assignment of the listeners
    that predate [setBusinessHours]. *)
Definition set_isWithinBusinessHours (v : jsval) (g : Globals) : Globals :=
  mkGlobals (businessHoursValue g) (businessHoursSource g) v
            (noAgentsAvailable g) (sessionWaitingStartTime g).

(** The page of the revisions that track [businessHoursEventFired]. *)
Record LegacyPage : Type := mkLegacyPage {
  businessHoursEventFired : bool;
  legacy_world : World
}.

Definition legacy_run {A} (c : JS A) (l : LegacyPage) : outcome A * LegacyPage :=
  let (o, w) := c (legacy_world l) in
  (o, mkLegacyPage (businessHoursEventFired l) w).

(** The snapshot listener before the fix of the undefined value.
    [detail] is [None] when [event.detail] is missing, in which case
    reading [event.detail.withinBusinessHours] raises a TypeError. *)
Definition onWithinBusinessHours_before_fix (detail : option jsval)
  (l : LegacyPage) : outcome unit * LegacyPage :=
  let l1 := mkLegacyPage true (legacy_world l) in
  match detail with
  | None => (Thrown, l1)
  | Some v =>
      legacy_run (modify (with_vars (set_isWithinBusinessHours v)) ;;
                  updateChatAvailability (JStr "business_hours_event")) l1
  end.

(** The snapshot listener after the fix: [undefined] is taken as
    [true], every other value is stored as it is. *)
Definition onWithinBusinessHours_after_fix (detail : option jsval)
  (l : LegacyPage) : outcome unit * LegacyPage :=
  let l1 := mkLegacyPage true (legacy_world l) in
  match detail with
  | None => (Thrown, l1)
  | Some v =>
      let stored := match v with
                    | JUndefined => JBool true
                    | _ => v
                    end in
      legacy_run (modify (with_vars (set_isWithinBusinessHours stored)) ;;
                  updateChatAvailability (JStr "business_hours_event")) l1
  end.

(** The callback of the single API check of the four-layer revision:
    [setTimeout(() => { ... }, 2500)] in the messaging-ready listener. *)
Definition singleApiCheck (api : nat -> outcome jsval) : JS unit :=
  w <- get ;;
  match businessHoursValue (vars w) with
  | Some _ => ret tt
  | None =>
      stop <- try_catch
                (apiValue <- call_isWithinBusinessHours api ;;
                 setBusinessHours apiValue "api")
                (ret false) ;;
      if stop then ret tt
      else _ <- setBusinessHours (JBool true) "default_fallback" ;;
           ret tt
  end.

(** The messaging-ready listener of that revision; the result is the
    due time of the timeout it registers, if it registers one. *)
Definition onEmbeddedMessagingReady_singleCheck : JS (option Z) :=
  w <- get ;;
  match businessHoursValue (vars w) with
  | Some _ => ret None
  | None => ret (Some (now w + 2500))
  end.

(** ** The cleaned-up renderer and the Leave a Message button *)

(** The element [leaveMessageButton]: [None] when it is not in the
    document, otherwise whether it carries the class 'show'. *)
Definition showOfflineButton (button : option bool) : option bool :=
  match button with
  | Some _ => Some true
  | None => None
  end.

Definition hideOfflineButton (button : option bool) : option bool :=
  match button with
  | Some _ => Some false
  | None => None
  end.

(** [function updateChatAvailability(reason)] of the cleaned-up page:
    [const isAvailable = isWithinBusinessHours && !noAgentsAvailable]. *)
Definition updateChatAvailability_cleanup (reason : jsval)
  (st : option bool * World) : outcome unit * (option bool * World) :=
  let (button, w) := st in
  let isAvailable :=
    truthy (isWithinBusinessHours (vars w)) && negb (noAgentsAvailable (vars w)) in
  if isAvailable
  then
    let button' := hideOfflineButton button in
    let (o, w') := showChatButton w in
    (o, (button', w'))
  else
    match hideChatButton w with
    | (Normal _, w') => (Normal tt, (showOfflineButton button, w'))
    | (Thrown, w') => (Thrown, (button, w'))
    end.

(** The Leave a Message button is on screen. *)
Definition leaveMessageShown (button : option bool) : bool :=
  match button with
  | Some shown => shown
  | None => false
  end.

(** ** Hidden pre-chat fields and the authentication mode *)

Record PrechatData : Type := mkPrechatData {
  email : string;
  firstName : string;
  lastName : string;
  subject : string;
  chat_source__c : string
}.

(** [function getHiddenFieldsForMode()]: the object it returns, as the
    list of its properties in the order they are written. *)
Definition getHiddenFieldsForMode (isAuthenticatedMode : bool)
  (prechatData : PrechatData) : list (string * string) :=
  if isAuthenticatedMode
  then [("email", email prechatData);
        ("email_custom", email prechatData);
        ("FirstName", firstName prechatData);
        ("LastName", lastName prechatData);
        ("Subject", subject prechatData);
        ("chat_source__c", chat_source__c prechatData)]
  else [("chat_source__c", chat_source__c prechatData)].

(** Property lookup in such an object. *)
Fixpoint field (key : string) (obj : list (string * string)) : option string :=
  match obj with
  | [] => None
  | (k, v) :: rest => if String.eqb k key then Some v else field key rest
  end.

(** [embeddedservice_bootstrap.prechatAPI]: missing, or present with a
    [setHiddenPrechatFields] that raises or accepts. *)
Inductive PrechatAPI : Type :=
| NoPrechatAPI
| PrechatReady (raises : bool).

Record Badge : Type := mkBadge {
  textContent : string;
  className : string
}.

(** The part of the page [toggleAuthMode] works on.  An element is
    [None] when [document.getElementById] returns [null].
    [hiddenFieldCalls] lists, newest first, the arguments of the calls
    of [setHiddenPrechatFields] that the hosted API accepted. *)
Record AuthPage : Type := mkAuthPage {
  isAuthenticatedMode : bool;
  prechatData : PrechatData;
  authModeToggle : option bool;
  authModeBadge : option Badge;
  authModeDescription : option string;
  prechatAPI : PrechatAPI;
  hiddenFieldCalls : list (list (string * string))
}.

(** [function toggleAuthMode()] *)
Definition toggleAuthMode (a : AuthPage) : outcome unit * AuthPage :=
  match authModeToggle a with
  | None => (Thrown, a)
  | Some checked =>
      let a1 := mkAuthPage checked (prechatData a) (authModeToggle a)
                  (authModeBadge a) (authModeDescription a) (prechatAPI a)
                  (hiddenFieldCalls a) in
      match authModeBadge a1 with
      | None => (Thrown, a1)
      | Some _ =>
          let badge :=
            if checked
            then mkBadge "Authenticated" "auth-mode-badge authenticated"
            else mkBadge "Unauthenticated" "auth-mode-badge unauthenticated" in
          let a2 := mkAuthPage checked (prechatData a) (authModeToggle a)
                      (Some badge) (authModeDescription a) (prechatAPI a)
                      (hiddenFieldCalls a) in
          match authModeDescription a2 with
          | None => (Thrown, a2)
          | Some _ =>
              let description :=
                if checked
                then "Sending all fields (email, email_custom, FirstName, LastName, Subject, chat_source__c)"
                else "Sending only chat_source__c (guest user)" in
              let a3 := mkAuthPage checked (prechatData a) (authModeToggle a)
                          (Some badge) (Some description) (prechatAPI a)
                          (hiddenFieldCalls a) in
              match prechatAPI a3 with
              | NoPrechatAPI => (Normal tt, a3)
              | PrechatReady true => (Normal tt, a3)
              | PrechatReady false =>
                  (Normal tt,
                   mkAuthPage checked (prechatData a) (authModeToggle a)
                     (Some badge) (Some description) (prechatAPI a)
                     (getHiddenFieldsForMode checked (prechatData a)
                        :: hiddenFieldCalls a))
              end
          end
      end
  end.

(** [let prechatData = {...}] as the page declares it. *)
Definition default_prechatData : PrechatData :=
  mkPrechatData "dogz@mailinator.com" "Chat" "TestUser"
                "Chat Inquiry from Website" "Website".

(** A page with every element of the toggle present, in the default
    unauthenticated mode, and a loaded pre-chat API. *)
Definition auth_page (checked raises : bool) : AuthPage :=
  mkAuthPage false default_prechatData (Some checked)
             (Some (mkBadge "Unauthenticated" "auth-mode-badge unauthenticated"))
             (Some "Sending only chat_source__c (guest user)")
             (PrechatReady raises) [].

(** ** The revision that waits two seconds for a business-hours event *)

(** The three business-hours listeners of that revision; the snapshot
    one is the listener before the fix of the undefined value. *)
Inductive LegacyEvent : Type :=
| LegacySnapshot (detail : option jsval)
| LegacyStarted
| LegacyEnded.

Definition legacy_handle (e : LegacyEvent) (l : LegacyPage)
  : outcome unit * LegacyPage :=
  match e with
  | LegacySnapshot detail => onWithinBusinessHours_before_fix detail l
  | LegacyStarted =>
      legacy_run (modify (with_vars (set_isWithinBusinessHours (JBool true))) ;;
                  updateChatAvailability (JStr "business_hours_started"))
                 (mkLegacyPage true (legacy_world l))
  | LegacyEnded =>
      legacy_run (modify (with_vars (set_isWithinBusinessHours (JBool false))) ;;
                  updateChatAvailability (JStr "business_hours_ended"))
                 (mkLegacyPage true (legacy_world l))
  end.

(** Its messaging-ready listener: [noAgentsAvailable = false], then
    [setTimeout(..., 2000)]; the result is the due time of the timeout. *)
Definition legacy_onEmbeddedMessagingReady (l : LegacyPage)
  : outcome Z * LegacyPage :=
  (Normal (now (legacy_world l) + 2000),
   mkLegacyPage (businessHoursEventFired l)
                (with_vars (set_noAgentsAvailable false) (legacy_world l))).

(** The callback of that timeout. *)
Definition legacy_readyTimeout (l : LegacyPage) : outcome unit * LegacyPage :=
  if businessHoursEventFired l
  then (Normal tt, l)
  else legacy_run (updateChatAvailability (JStr "no_business_hours_configured")) l.

(** The listeners run one after the other; an exception ends one turn
    only. *)
Definition legacy_deliver (l : LegacyPage) (e : LegacyEvent) : LegacyPage :=
  snd (legacy_handle e l).

Definition has_detail (e : LegacyEvent) : bool :=
  match e with
  | LegacySnapshot None => false
  | _ => true
  end.

(** The two affordances show what the script variables say. *)
Definition in_sync (w : World) : Prop :=
  chatShown w =
    truthy (isWithinBusinessHours (vars w)) && negb (noAgentsAvailable (vars w)) /\
  offlineVisible w =
    negb (truthy (isWithinBusinessHours (vars w)) && negb (noAgentsAvailable (vars w))).

(** * Properties *)

(** ** Frame lemmas: what each part of the script leaves alone *)

Ltac js_unfold :=
  unfold exec, completes, onEmbeddedMessagingWithinBusinessHours,
    onEmbeddedMessagingBusinessHoursStarted, onEmbeddedMessagingBusinessHoursEnded,
    onEmbeddedMessagingButtonCreated, setBusinessHours, updateChatAvailability,
    showChatButton, hideChatButton, utilAPI_toggle, utilAPI_available,
    showOfflineForm, hideOfflineForm, updateOfflineFormMessage, when,
    try_catch, bind, ret, throw, get, modify in *.

Ltac widget_cases w :=
  let x := fresh "x" in
  let r := fresh "raises" in
  let v := fresh "visible" in
  destruct w as [[? ? ? ? ?] [x ? ?] ? ? ?]; destruct x as [|r|v];
  [ | destruct r | ].

(** The renderer never writes a script variable, a timer, the clock or
    the probe log, whether it completes or throws. *)
Lemma updateChatAvailability_frame reason w :
  let w' := exec (updateChatAvailability reason) w in
  vars w' = vars w /\ timers w' = timers w /\ now w' = now w /\
  probeLog w' = probeLog w.
Proof.
  js_unfold. widget_cases w; cbn;
    repeat match goal with
           | |- context [if ?b then _ else _] => destruct b; cbn
           end; auto.
Qed.

(** [setBusinessHours] on a boolean performs its three assignments
    before it renders, so they hold whatever the renderer does. *)
Lemma setBusinessHours_bool_vars b source w :
  vars (exec (setBusinessHours (JBool b) source) w) = set_resolved b source (vars w).
Proof.
  pose proof (updateChatAvailability_frame (JStr source)
                (with_vars (set_resolved b source) w)) as [Hv _].
  unfold exec in *. unfold setBusinessHours, bind, modify, ret in *.
  destruct (updateChatAvailability _ _) as [[[]|] w']; cbn in *; exact Hv.
Qed.

Lemma setBusinessHours_non_boolean v source w :
  is_boolean v = false -> setBusinessHours v source w = (Normal false, w).
Proof. destruct v; cbn; intros H; try reflexivity; discriminate. Qed.

Lemma setBusinessHours_frame v source w :
  let w' := exec (setBusinessHours v source) w in
  timers w' = timers w /\ now w' = now w /\ probeLog w' = probeLog w.
Proof.
  destruct v; try (cbn; auto; fail).
  pose proof (updateChatAvailability_frame (JStr source)
                (with_vars (set_resolved b source) w)) as (_ & Ht & Hn & Hp).
  unfold exec in *. unfold setBusinessHours, bind, modify, ret in *.
  destruct (updateChatAvailability _ _) as [[[]|] w']; cbn in *; auto.
Qed.

(** ** Resolver *)

Lemma snapshot_non_boolean v w :
  is_boolean v = false ->
  onEmbeddedMessagingWithinBusinessHours (Some v) w = (Normal tt, w).
Proof.
  intros Hv. unfold onEmbeddedMessagingWithinBusinessHours, bind.
  now rewrite (setBusinessHours_non_boolean _ _ _ Hv).
Qed.

(** C5. A value that is not a strict boolean is ignored by
    [setBusinessHours]: the call returns [false] without throwing and
    leaves the whole page state as it was, the snapshot listener that
    forwards such a value completes normally as well, and the call
    reports acceptance only for a strict [true] or [false]. *)
Theorem setBusinessHours_ignores_non_boolean v source w
  (Hv : is_boolean v = false) :
  setBusinessHours v source w = (Normal false, w) /\
  onEmbeddedMessagingWithinBusinessHours (Some v) w = (Normal tt, w) /\
  onEmbeddedMessagingWithinBusinessHours None w = (Normal tt, w) /\
  (forall v', fst (setBusinessHours v' source w) = Normal true ->
              exists b, v' = JBool b).
Proof.
  repeat split.
  - now apply setBusinessHours_non_boolean.
  - now apply snapshot_non_boolean.
  - intros v' H. destruct v'; cbn in H; try discriminate. now exists b.
Qed.

Lemma setBusinessHours_ignores_non_boolean_witness :
  setBusinessHours (JStr "true") "event" (initial_world 0 0 page_button_ready)
  = (Normal false, initial_world 0 0 page_button_ready).
Proof.
  exact (proj1 (setBusinessHours_ignores_non_boolean
                  (JStr "true") "event" (initial_world 0 0 page_button_ready)
                  eq_refl)).
Defined.

(** C6. The period-started and period-ended listeners always overwrite
    the Resolved State, to available and to unavailable respectively,
    whatever the previous value and source were. *)
Theorem transition_always_overwrites w :
  let started := exec onEmbeddedMessagingBusinessHoursStarted w in
  let ended := exec onEmbeddedMessagingBusinessHoursEnded w in
  (resolved started = (Some true, Some "hours_started_event") /\
   isWithinBusinessHours (vars started) = JBool true) /\
  (resolved ended = (Some false, Some "hours_ended_event") /\
   isWithinBusinessHours (vars ended) = JBool false).
Proof.
  cbv zeta.
  pose proof (setBusinessHours_bool_vars true "hours_started_event" w) as Hs.
  pose proof (setBusinessHours_bool_vars false "hours_ended_event" w) as He.
  unfold exec, resolved, onEmbeddedMessagingBusinessHoursStarted,
    onEmbeddedMessagingBusinessHoursEnded, bind, ret in *.
  destruct (setBusinessHours (JBool true) _ w) as [[?|] ws];
    destruct (setBusinessHours (JBool false) _ w) as [[?|] we];
    cbn in *; rewrite Hs, He; cbn; auto.
Qed.

(** C1, as stated, fails: a second snapshot event carrying the other
    boolean replaces a Resolved State that the first one had set. *)
Lemma duplicate_snapshot_resets_resolved_state :
  let w1 := exec (onEmbeddedMessagingWithinBusinessHours (Some (JBool true)))
                 (initial_world 0 0 page_button_ready) in
  let w2 := exec (onEmbeddedMessagingWithinBusinessHours (Some (JBool false))) w1 in
  resolved w1 = (Some true, Some "event") /\
  resolved w2 = (Some false, Some "event") /\
  resolved w2 <> resolved w1.
Proof. cbv. repeat split; discriminate. Qed.

Lemma tryApiCheck_resolved api k w b :
  businessHoursValue (vars w) = Some b -> tryApiCheck api k w = (Normal tt, w).
Proof. intros H. unfold tryApiCheck, bind, get. now rewrite H. Qed.

(** The messaging-ready listener always completes: it clears the
    demotion flag and, while the business hours are undetermined,
    registers the first attempt one second ahead. *)
Lemma onEmbeddedMessagingReady_effect w :
  onEmbeddedMessagingReady w =
  (Normal tt,
   match businessHoursValue (vars w) with
   | Some _ => with_vars (set_noAgentsAvailable false) w
   | None =>
       with_timers (insert_timer (mkTimer (now w + 1000) 0))
                   (with_vars (set_noAgentsAvailable false) w)
   end).
Proof.
  unfold onEmbeddedMessagingReady, bind, modify, get. cbn.
  destruct (businessHoursValue (vars w)); reflexivity.
Qed.

Lemma onEmbeddedMessagingReady_resolved w b :
  businessHoursValue (vars w) = Some b ->
  onEmbeddedMessagingReady w = (Normal tt, with_vars (set_noAgentsAvailable false) w).
Proof. intros H. rewrite onEmbeddedMessagingReady_effect. now rewrite H. Qed.

(** C1, amended. Once the Resolved State is set, a later snapshot or
    probe value that is not a strict boolean leaves it unchanged, a
    repetition of the resolved boolean from the same source leaves it
    unchanged, and the polling chain queries nothing and changes
    nothing; but any later strict boolean, from whatever source,
    replaces value and source: the script has no latch. *)
Theorem resolved_state_after_first_signal w b src
  (Hset : businessHoursValue (vars w) = Some b)
  (Hsrc : businessHoursSource (vars w) = Some src)
  (Hcoh : coherent w) :
  (forall v s, is_boolean v = false -> exec (setBusinessHours v s) w = w) /\
  vars (exec (setBusinessHours (JBool b) src) w) = vars w /\
  (forall api k, exec (tryApiCheck api k) w = w) /\
  (forall b' s, let w' := exec (setBusinessHours (JBool b') s) w in
                resolved w' = (Some b', Some s) /\
                isWithinBusinessHours (vars w') = JBool b').
Proof.
  repeat split.
  - intros v s Hv. unfold exec. now rewrite setBusinessHours_non_boolean.
  - rewrite setBusinessHours_bool_vars. unfold coherent in Hcoh.
    destruct w as [[bv bs iw na st] ? ? ? ?]; cbn in *.
    rewrite Hset in Hcoh. now subst.
  - intros api k. unfold exec. now rewrite (tryApiCheck_resolved api k w b).
  - unfold resolved. now rewrite setBusinessHours_bool_vars.
  - now rewrite setBusinessHours_bool_vars.
Qed.

Lemma resolved_state_after_first_signal_witness :
  let w := exec (onEmbeddedMessagingWithinBusinessHours (Some (JBool true)))
                (initial_world 0 0 page_button_ready) in
  exec (setBusinessHours JUndefined "event") w = w /\
  resolved (exec (setBusinessHours (JBool false) "api") w) = (Some false, Some "api").
Proof.
  cbv zeta.
  pose proof (resolved_state_after_first_signal
                (exec (onEmbeddedMessagingWithinBusinessHours (Some (JBool true)))
                      (initial_world 0 0 page_button_ready))
                true "event" eq_refl eq_refl eq_refl) as (H1 & _ & _ & H4).
  split.
  - exact (H1 JUndefined "event" eq_refl).
  - exact (proj1 (H4 false "api")).
Defined.

(** ** Reactive failure monitor *)

Lemma session_update_effect d w :
  onEmbeddedMessagingSessionStatusUpdate d w =
  (Normal tt,
   if strict_eq_str (status d) "Active"
   then with_vars (set_noAgentsAvailable false) w
   else if pattern_reason d || pattern_routing d || pattern_waiting w d
           || pattern_no_agent d
        then with_vars (set_noAgentsAvailable true) w
        else w).
Proof.
  unfold onEmbeddedMessagingSessionStatusUpdate, pattern_reason, pattern_routing,
    pattern_waiting, pattern_no_agent, when, bind, get, modify, ret.
  destruct w as [[bv bs iw na st] pg t ts pl]; cbn.
  destruct (status d) as [| |?|?|s|]; cbn; try reflexivity.
  destruct (String.eqb s "Ended") eqn:He; destruct (String.eqb s "Waiting") eqn:Hw;
    destruct (String.eqb s "Active") eqn:Ha; cbn;
    try (apply String.eqb_eq in He; apply String.eqb_eq in Ha; congruence);
    try (apply String.eqb_eq in Hw; apply String.eqb_eq in Ha; congruence);
    try (apply String.eqb_eq in He; apply String.eqb_eq in Hw; congruence);
    repeat match goal with
           | |- context [if ?c then _ else _] => destruct c; cbn
           | |- context [match ?c with Some _ => _ | None => _ end] => destruct c; cbn
           end; reflexivity.
Qed.

(** C10. Every session-status update whose status is 'Active' clears
    the demotion flag, whatever the other fields of the payload are,
    in particular without any agent information. *)
Theorem active_status_clears_demotion d w
  (Hactive : status d = JStr "Active") :
  onEmbeddedMessagingSessionStatusUpdate d w =
  (Normal tt, with_vars (set_noAgentsAvailable false) w) /\
  noAgentsAvailable (vars (exec (onEmbeddedMessagingSessionStatusUpdate d) w)) = false.
Proof.
  unfold exec. rewrite session_update_effect, Hactive. cbn. auto.
Qed.

Lemma active_status_clears_demotion_witness :
  noAgentsAvailable
    (vars (exec (onEmbeddedMessagingSessionStatusUpdate (bare_status "Active"))
                (with_vars (set_noAgentsAvailable true)
                           (initial_world 0 0 page_button_ready)))) = false.
Proof.
  exact (proj2 (active_status_clears_demotion (bare_status "Active")
                  (with_vars (set_noAgentsAvailable true)
                             (initial_world 0 0 page_button_ready))
                  eq_refl)).
Defined.

(** ** Preservation of state properties by statements *)

Section Preservation.

Variable P : World -> Prop.

Lemma preserves_ret {A} (a : A) : preserves P (ret a).
Proof. intros w H. exact H. Qed.

Lemma preserves_get : preserves P get.
Proof. intros w H. exact H. Qed.

Lemma preserves_modify f : (forall w, P w -> P (f w)) -> preserves P (modify f).
Proof. intros Hf w H. apply Hf, H. Qed.

Lemma preserves_bind {A B} (c : JS A) (k : A -> JS B) :
  preserves P c -> (forall a, preserves P (k a)) -> preserves P (bind c k).
Proof.
  intros Hc Hk w H. specialize (Hc w H). unfold exec, bind in *.
  destruct (c w) as [[a|] w']; cbn in *; [apply Hk, Hc | exact Hc].
Qed.

Lemma preserves_try_catch {A} (c h : JS A) :
  preserves P c -> preserves P h -> preserves P (try_catch c h).
Proof.
  intros Hc Hh w H. specialize (Hc w H). unfold exec, try_catch in *.
  destruct (c w) as [[a|] w']; cbn in *; [exact Hc | apply Hh, Hc].
Qed.

Lemma preserves_when b c : preserves P c -> preserves P (when b c).
Proof. intros Hc. destruct b; [exact Hc | apply preserves_ret]. Qed.

(** A property that only reads the script variables is kept by the
    renderer. *)
Hypothesis P_vars : forall w w', vars w' = vars w -> P w -> P w'.

Lemma preserves_updateChatAvailability reason :
  preserves P (updateChatAvailability reason).
Proof.
  intros w H. eapply P_vars; [ | exact H ].
  apply updateChatAvailability_frame.
Qed.

Lemma preserves_setBusinessHours v source :
  (forall b w, P w -> P (with_vars (set_resolved b source) w)) ->
  preserves P (setBusinessHours v source).
Proof.
  intros Hset. destruct v; try apply preserves_ret.
  unfold setBusinessHours.
  apply preserves_bind; [ apply preserves_modify, Hset | intros _ ].
  apply preserves_bind; [ apply preserves_updateChatAvailability | intros _ ].
  apply preserves_ret.
Qed.

End Preservation.

Lemma coherent_vars w w' : vars w' = vars w -> coherent w -> coherent w'.
Proof. unfold coherent. now intros ->. Qed.

Lemma coherent_set_resolved b source w :
  coherent (with_vars (set_resolved b source) w).
Proof. reflexivity. Qed.

Lemma coherent_tryApiCheck api k : preserves coherent (tryApiCheck api k).
Proof.
  unfold tryApiCheck.
  apply preserves_bind; [ apply preserves_get | intros w0 ].
  destruct (businessHoursValue (vars w0)); [ apply preserves_ret | ].
  apply preserves_bind.
  - apply preserves_try_catch; [ | apply preserves_ret ].
    apply preserves_bind.
    + intros w H. eapply coherent_vars; [ | exact H ]. reflexivity.
    + intros v. apply preserves_setBusinessHours.
      * exact coherent_vars.
      * intros; apply coherent_set_resolved.
  - intros stop. destruct stop; [ apply preserves_ret | ].
    destruct (_ <? _)%nat.
    + apply preserves_modify. intros w H.
      eapply coherent_vars; [ | exact H ]. reflexivity.
    + apply preserves_bind; [ | intros; apply preserves_ret ].
      apply preserves_setBusinessHours.
      * exact coherent_vars.
      * intros; apply coherent_set_resolved.
Qed.

Lemma coherent_handle e : preserves coherent (handle e).
Proof.
  destruct e; cbn [handle].
  - unfold onEmbeddedMessagingWithinBusinessHours.
    apply preserves_bind; [ | intros; apply preserves_ret ].
    apply preserves_setBusinessHours;
      [ exact coherent_vars | intros; apply coherent_set_resolved ].
  - unfold onEmbeddedMessagingBusinessHoursStarted.
    apply preserves_bind; [ | intros; apply preserves_ret ].
    apply preserves_setBusinessHours;
      [ exact coherent_vars | intros; apply coherent_set_resolved ].
  - unfold onEmbeddedMessagingBusinessHoursEnded.
    apply preserves_bind; [ | intros; apply preserves_ret ].
    apply preserves_setBusinessHours;
      [ exact coherent_vars | intros; apply coherent_set_resolved ].
  - intros w H. unfold exec. rewrite onEmbeddedMessagingReady_effect.
    destruct (businessHoursValue (vars w)); exact H.
  - apply preserves_updateChatAvailability. exact coherent_vars.
  - intros w H. unfold exec. rewrite session_update_effect.
    repeat match goal with
           | |- context [if ?c then _ else _] => destruct c
           end; cbn; exact H.
Qed.

Lemma coherent_step api w s : coherent w -> coherent (step api w s).
Proof.
  intros H. destruct s as [t e| |x]; cbn [step].
  - apply coherent_handle. exact H.
  - destruct (timers w) as [|tm rest]; [ exact H | ].
    apply coherent_tryApiCheck. exact H.
  - exact H.
Qed.

(** Every state the event loop can reach from page load is coherent. *)
Lemma coherent_run api steps w : coherent w -> coherent (run api steps w).
Proof.
  unfold run. revert w.
  induction steps as [|s steps IH]; intros w H; cbn; [ exact H | ].
  apply IH, coherent_step, H.
Qed.

Lemma coherent_initial ws t0 p : coherent (initial_world ws t0 p).
Proof. reflexivity. Qed.

(** ** UI reconciler *)

(** With the button in the page the renderer completes and the two
    affordances follow the availability test. *)
Lemma render_with_button reason w v :
  widget (page w) = Button v ->
  let available :=
    truthy (isWithinBusinessHours (vars w)) && negb (noAgentsAvailable (vars w)) in
  let r := updateChatAvailability reason w in
  fst r = Normal tt /\
  chatShown (snd r) = available /\
  offlineVisible (snd r) = negb available.
Proof.
  intros H. js_unfold. unfold chatShown, offlineVisible.
  destruct w as [[bv bs iw na st] [x os om] t ts pl]; cbn in *. subst x. cbn.
  destruct (truthy iw && negb na); cbn; [ auto | ].
  destruct (na && truthy reason); cbn; auto.
Qed.


(** A render under a set demotion flag hides the chat button, and shows
    the offline affordance unless the hosted toggle raised first. *)
Lemma render_demoted reason w :
  noAgentsAvailable (vars w) = true ->
  chatShown (exec (updateChatAvailability reason) w) = false /\
  (widget (page w) <> NoButton true ->
   offlineVisible (exec (updateChatAvailability reason) w) = true).
Proof.
  intros H. js_unfold. unfold chatShown, offlineVisible.
  widget_cases w; cbn in *; subst; rewrite andb_false_r; cbn;
    repeat match goal with
           | |- context [if ?b then _ else _] => destruct b; cbn
           end; split; auto; intros Hne; congruence.
Qed.

(** Unless the hosted toggle raises, the renderer completes; the
    offline affordance follows the availability test, the chat button
    follows it only when the widget has created the button. *)
Lemma render_without_raise reason w :
  widget (page w) <> NoButton true ->
  let available :=
    truthy (isWithinBusinessHours (vars w)) && negb (noAgentsAvailable (vars w)) in
  let r := updateChatAvailability reason w in
  fst r = Normal tt /\
  chatShown (snd r) = available && has_button (page w) /\
  offlineVisible (snd r) = negb available.
Proof.
  intros H. js_unfold. unfold chatShown, offlineVisible, has_button.
  widget_cases w; cbn in *; try congruence;
    repeat match goal with
           | |- context [if ?b then _ else _] => destruct b; cbn
           end; auto.
Qed.




(** C7, as stated, fails: at page load the availability variable is
    [true], so the render issued by the button-created listener shows
    the chat button although nothing has resolved the business hours. *)
Lemma chat_shown_before_first_resolution :
  let w := exec onEmbeddedMessagingButtonCreated
                (initial_world 0 0 page_button_ready) in
  businessHoursValue (vars w) = None /\
  chatShown w = true /\
  offlineVisible w = false.
Proof. cbv. auto. Qed.

(** C7, amended. In every state reached from page load in which the
    Resolved State is still unset, the availability variable holds its
    default [true]; with the demotion flag clear, the render issued by
    the button-created listener therefore shows the chat button and
    hides the offline affordance, and leaves the Resolved State unset. *)
Theorem unresolved_render_shows_chat api steps ws t0 p v :
  let w := run api steps (initial_world ws t0 p) in
  businessHoursValue (vars w) = None ->
  noAgentsAvailable (vars w) = false ->
  widget (page w) = Button v ->
  let w' := exec onEmbeddedMessagingButtonCreated w in
  isWithinBusinessHours (vars w) = JBool true /\
  chatShown w' = true /\
  offlineVisible w' = false /\
  businessHoursValue (vars w') = None.
Proof.
  intros w Hunset Hna Hv w'.
  pose proof (coherent_run api steps _ (coherent_initial ws t0 p)) as Hc.
  fold w in Hc. unfold coherent in Hc. rewrite Hunset in Hc.
  destruct (render_with_button (JStr "button_created") w v Hv) as (_ & Hchat & Hoff).
  rewrite Hc, Hna in Hchat, Hoff. cbn in Hchat, Hoff.
  destruct (updateChatAvailability_frame (JStr "button_created") w) as (Hvars & _).
  unfold w', onEmbeddedMessagingButtonCreated. unfold exec in *.
  rewrite Hvars. auto.
Qed.

Lemma unresolved_render_shows_chat_witness :
  chatShown (exec onEmbeddedMessagingButtonCreated
                  (run api_undefined [Hosted (Button false)]
                       (initial_world 0 0 page_loading))) = true.
Proof.
  exact (proj1 (proj2 (unresolved_render_shows_chat api_undefined
                         [Hosted (Button false)] 0 0 page_loading false
                         eq_refl eq_refl eq_refl))).
Defined.

(** The waiting pattern compares strictly: a 'Waiting' update observed
    exactly 60000 ms after the waiting start does not demote. *)
Lemma waiting_at_threshold_keeps_flag api w t :
  t - sessionWaitingStartTime (vars w) = 60000 ->
  noAgentsAvailable (vars (step api w (Deliver t (SessionStatusUpdate (bare_status "Waiting")))))
  = noAgentsAvailable (vars w).
Proof.
  intros H. cbn [step handle]. unfold exec. rewrite session_update_effect.
  unfold pattern_waiting, pattern_reason, pattern_routing, pattern_no_agent.
  cbn. rewrite H. reflexivity.
Qed.

(** C9, as stated, fails: no call site catches an exception of the
    hosted toggle.  With the API object present but the button element
    missing, a toggle that raises makes [showChatButton] throw, the
    exception leaves [updateChatAvailability], and it leaves the
    listener that requested the render. *)
Lemma raising_toggle_escapes_reconciler :
  let w := initial_world 0 0 page_api_without_button in
  fst (showChatButton w) = Thrown /\
  fst (updateChatAvailability JNull w) = Thrown /\
  fst (onEmbeddedMessagingBusinessHoursStarted w) = Thrown.
Proof. cbv. auto. Qed.

(** ** Probe scheduler *)

(** The five delays add up to 1 s, 3 s, 6 s, 10 s and 15 s. *)
Lemma schedule_times t0 :
  cumulative t0 delays =
  [t0 + 1000; t0 + 3000; t0 + 6000; t0 + 10000; t0 + 15000].
Proof. cbn. repeat (f_equal; try lia). Qed.

Lemma insert_timer_nil t : insert_timer t [] = [t].
Proof. reflexivity. Qed.

(** Listeners other than the messaging-ready one touch neither the
    timers nor the probe log. *)
Lemma handle_frame e w :
  e <> MessagingReady ->
  timers (exec (handle e) w) = timers w /\
  probeLog (exec (handle e) w) = probeLog w.
Proof.
  intros He. destruct e; cbn [handle]; try congruence.
  - unfold onEmbeddedMessagingWithinBusinessHours.
    pose proof (setBusinessHours_frame
                  match detail with Some v => v | None => JUndefined end
                  "event" w) as (Ht & _ & Hp).
    unfold exec, bind, ret in *.
    destruct (setBusinessHours _ _ w) as [[?|] w']; cbn in *; auto.
  - unfold onEmbeddedMessagingBusinessHoursStarted.
    pose proof (setBusinessHours_frame (JBool true) "hours_started_event" w)
      as (Ht & _ & Hp).
    unfold exec, bind, ret in *.
    destruct (setBusinessHours _ _ w) as [[?|] w']; cbn in *; auto.
  - unfold onEmbeddedMessagingBusinessHoursEnded.
    pose proof (setBusinessHours_frame (JBool false) "hours_ended_event" w)
      as (Ht & _ & Hp).
    unfold exec, bind, ret in *.
    destruct (setBusinessHours _ _ w) as [[?|] w']; cbn in *; auto.
  - unfold onEmbeddedMessagingButtonCreated.
    pose proof (updateChatAvailability_frame (JStr "button_created") w)
      as (_ & Ht & _ & Hp).
    auto.
  - unfold exec. rewrite session_update_effect.
    repeat match goal with
           | |- context [if ?c then _ else _] => destruct c
           end; cbn; auto.
Qed.

(** What one run of [tryApiCheck] does to the probe log and the timers:
    nothing at all; or one query at the current time, after which
    either no timer is added or the next attempt of the chain is
    registered. *)
Lemma tryApiCheck_effect api k w :
  let w' := exec (tryApiCheck api k) w in
  now w' = now w /\
  ((probeLog w' = probeLog w /\ timers w' = timers w) \/
   (businessHoursValue (vars w) = None /\
    probeLog w' = now w :: probeLog w /\
    (timers w' = timers w \/
     ((S k < maxAttempts)%nat /\
      timers w' =
      insert_timer (mkTimer (now w + nth (S k) delays 0) (S k)) (timers w))))).
Proof.
  cbv zeta. unfold exec, tryApiCheck, bind, get.
  destruct (businessHoursValue (vars w)) eqn:Hv; cbn; [ auto | ].
  unfold try_catch, call_isWithinBusinessHours, bind, ret.
  assert (Hstop :
    forall stop w1,
      now w1 = now w -> timers w1 = timers w -> probeLog w1 = now w :: probeLog w ->
      let r := (if stop : bool then ret tt
                else if (S k <? maxAttempts)%nat
                     then setTimeout_tryApiCheck (S k) (nth (S k) delays 0)
                     else bind (setBusinessHours (JBool true) "default_fallback")
                               (fun _ => ret tt)) w1 in
      now (snd r) = now w /\
      probeLog (snd r) = now w :: probeLog w /\
      (timers (snd r) = timers w \/
       ((S k < maxAttempts)%nat /\
        timers (snd r) =
        insert_timer (mkTimer (now w + nth (S k) delays 0) (S k)) (timers w)))).
  { intros stop w1 Hn Ht Hp. cbv zeta. destruct stop; [ cbn; auto | ].
    destruct (Nat.ltb_spec (S k) maxAttempts) as [Hlt|Hge].
    - unfold setTimeout_tryApiCheck, modify. cbn. rewrite Hn, Ht. auto.
    - pose proof (setBusinessHours_frame (JBool true) "default_fallback" w1)
        as (Ht' & Hn' & Hp').
      unfold exec, bind, ret in *.
      destruct (setBusinessHours (JBool true) "default_fallback" w1) as [[?|] w2];
        cbn in *; rewrite Hn', Hp', Ht'; auto. }
  destruct (api (List.length (probeLog w))) as [v|].
  - pose proof (setBusinessHours_frame v "api" (log_probe w)) as (Ht & Hn & Hp).
    unfold exec in *.
    destruct (setBusinessHours v "api" (log_probe w)) as [[stop|] w1]; cbn in *.
    + destruct (Hstop stop w1 Hn Ht Hp) as (H1 & H2 & H3). split; auto.
    + destruct (Hstop false w1 Hn Ht Hp) as (H1 & H2 & H3). split; auto.
  - destruct (Hstop false (log_probe w) eq_refl eq_refl eq_refl) as (H1 & H2 & H3).
    split; auto.
Qed.

(** A step taken in a resolved state never queries the availability
    API. *)
Lemma resolved_step_does_not_probe api w s b :
  businessHoursValue (vars w) = Some b ->
  probeLog (step api w s) = probeLog w.
Proof.
  intros Hb. destruct s as [t e| |x]; cbn [step].
  - change (probeLog w) with (probeLog (with_now t w)).
    destruct e; try (apply handle_frame; congruence).
    cbn [handle]. unfold exec.
    now rewrite (onEmbeddedMessagingReady_resolved (with_now t w) b).
  - destruct (timers w) as [|tm rest]; [ reflexivity | ].
    unfold exec.
    now rewrite (tryApiCheck_resolved api (attempts tm) _ b).
  - reflexivity.
Qed.

Lemma chain_invariant_step api t0 w s :
  not_ready s = true -> chain_invariant t0 w -> chain_invariant t0 (step api w s).
Proof.
  intros Hs (n & Hn & Hlog & Htm).
  destruct s as [t e| |x]; cbn [step].
  - assert (He : e <> MessagingReady) by (destruct e; cbn in Hs; congruence).
    destruct (handle_frame e (with_now t w) He) as (Ht & Hp).
    exists n. rewrite Ht, Hp. auto.
  - destruct Htm as [Htm | (Hlt & Htm)]; rewrite Htm.
    + exists n. auto.
    + cbn [attempts due].
      set (w1 := with_now _ (with_timers _ w)).
      destruct (tryApiCheck_effect api n w1) as (_ & [(Hp & Ht) | (_ & Hp & Ht)]).
      * exists n. rewrite Hp, Ht. cbn. auto.
      * set (w' := exec (tryApiCheck api n) w1) in *.
        assert (Hnow : now w1 = nth n (cumulative t0 delays) 0) by reflexivity.
        assert (Htm1 : timers w1 = []) by reflexivity.
        assert (Hp1 : probeLog w1 = probeLog w) by reflexivity.
        rewrite Hnow, Hp1 in Hp. rewrite Hnow, Htm1 in Ht.
        clearbody w' w1.
        exists (S n). unfold maxAttempts in *. rewrite Hp. cbn [rev]. rewrite Hlog.
        rewrite schedule_times in *.
        split; [ lia | ].
        destruct n as [|[|[|[|[|n]]]]]; try lia; cbn in *;
          (split; [ reflexivity | ]);
          (destruct Ht as [Ht | (Hlt' & Ht)];
           [ left; exact Ht
           | right; split; [ lia | rewrite Ht; do 2 f_equal; lia ] ]).
  - exists n. auto.
Qed.

Lemma chain_invariant_run api t0 steps w :
  forallb not_ready steps = true ->
  chain_invariant t0 w -> chain_invariant t0 (run api steps w).
Proof.
  unfold run. revert w.
  induction steps as [|s steps IH]; intros w Hs H; cbn in *; [ exact H | ].
  apply andb_prop in Hs as (Hs1 & Hs2).
  apply IH; [ exact Hs2 | ]. now apply chain_invariant_step.
Qed.

Lemma chain_invariant_start w0 :
  timers w0 = [] -> probeLog w0 = [] ->
  chain_invariant (now w0) (exec onEmbeddedMessagingReady w0).
Proof.
  intros Ht Hp. exists 0%nat. unfold exec.
  rewrite onEmbeddedMessagingReady_effect.
  destruct w0 as [g pg t ts pl]. cbn in Ht, Hp. subst ts pl. cbn.
  destruct (businessHoursValue g); cbn; unfold maxAttempts.
  - split; [ lia | ]. split; [ reflexivity | ]. left. reflexivity.
  - split; [ lia | ]. split; [ reflexivity | ].
    right. split; [ lia | reflexivity ].
Qed.

(** Registering a timer adds the attempts its chain has left. *)
Lemma attempts_left_insert t ts :
  attempts_left (insert_timer t ts) =
  (maxAttempts - attempts t + attempts_left ts)%nat.
Proof.
  induction ts as [|u rest IH]; cbn [insert_timer attempts_left]; [ lia | ].
  destruct (due t <? due u); cbn [attempts_left]; [ lia | rewrite IH; lia ].
Qed.

Lemma live_insert t ts :
  (attempts t < maxAttempts)%nat ->
  Forall (fun u => (attempts u < maxAttempts)%nat) ts ->
  Forall (fun u => (attempts u < maxAttempts)%nat) (insert_timer t ts).
Proof.
  intros Ht Hw.
  induction Hw as [|u rest Hu Hrest IH]; cbn [insert_timer].
  - constructor; [ exact Ht | constructor ].
  - destruct (due t <? due u).
    + constructor; [ exact Ht | constructor; assumption ].
    + constructor; assumption.
Qed.

(** One turn of the event loop: only a messaging-ready event raises the
    budget, by the five attempts of the chain it starts; a timer turn
    converts one attempt its chain had left into a query. *)
Lemma probe_budget_step api w s :
  timers_live w ->
  timers_live (step api w s) /\
  (probe_budget (step api w s) <=
   probe_budget w + (if is_ready s then maxAttempts else 0))%nat.
Proof.
  intros Hlive. destruct s as [t e| |x]; cbn [step].
  - assert (Hother : e <> MessagingReady ->
              timers_live (exec (handle e) (with_now t w)) /\
              (probe_budget (exec (handle e) (with_now t w)) <=
               probe_budget w + 0)%nat).
    { intros He. destruct (handle_frame e (with_now t w) He) as (Ht & Hp).
      unfold timers_live, probe_budget. rewrite Ht, Hp. cbn [timers probeLog with_now].
      split; [ exact Hlive | lia ]. }
    destruct e;
      try (cbn [is_ready not_ready negb]; apply Hother; discriminate).
    cbn [is_ready not_ready negb handle]. unfold exec.
    rewrite onEmbeddedMessagingReady_effect. cbn [snd].
    destruct (businessHoursValue (vars (with_now t w))).
    + unfold timers_live, probe_budget. cbn [timers probeLog with_vars with_now].
      split; [ exact Hlive | lia ].
    + split.
      * unfold timers_live. cbn [timers with_vars with_now with_timers].
        apply live_insert; [ cbn; unfold maxAttempts; lia | exact Hlive ].
      * unfold probe_budget.
        cbn [timers probeLog with_vars with_now with_timers].
        rewrite attempts_left_insert. cbn [attempts]. lia.
  - cbn [is_ready not_ready negb]. unfold timers_live, probe_budget in *.
    destruct (timers w) as [|tm rest] eqn:Htm; [ rewrite Htm; split; [ exact Hlive | lia ] | ].
    inversion Hlive as [|? ? Hk Hrest]; subst.
    set (w1 := with_now (due tm) (with_timers (fun _ => rest) w)).
    assert (Ht1 : timers w1 = rest) by reflexivity.
    assert (Hp1 : probeLog w1 = probeLog w) by reflexivity.
    destruct (tryApiCheck_effect api (attempts tm) w1)
      as (_ & [(Hp & Ht) | (_ & Hp & [Ht | (Hlt & Ht)])]);
      rewrite Hp; rewrite Ht; rewrite ?Ht1, ?Hp1; cbn [attempts_left List.length].
    + split; [ exact Hrest | lia ].
    + split; [ exact Hrest | lia ].
    + split.
      * apply live_insert; [ exact Hlt | exact Hrest ].
      * rewrite attempts_left_insert. cbn [attempts]. lia.
  - cbn [is_ready not_ready negb]. unfold timers_live, probe_budget.
    cbn [timers probeLog with_page]. split; [ exact Hlive | lia ].
Qed.

Lemma probe_budget_run api steps w :
  timers_live w ->
  timers_live (run api steps w) /\
  (probe_budget (run api steps w) <=
   probe_budget w + maxAttempts * ready_count steps)%nat.
Proof.
  unfold run, ready_count. revert w.
  induction steps as [|s steps IH]; intros w Hlive; cbn [fold_left filter].
  - cbn. split; [ exact Hlive | lia ].
  - destruct (probe_budget_step api w s Hlive) as (Hlive1 & Hb1).
    destruct (IH _ Hlive1) as (Hlive2 & Hb2).
    split; [ exact Hlive2 | ].
    destruct (is_ready s); cbn [List.length] in *; lia.
Qed.

(** A start of the scheduler on an idle page opens a budget of five. *)
Lemma probe_budget_start w0 :
  timers w0 = [] -> probeLog w0 = [] ->
  timers_live (exec onEmbeddedMessagingReady w0) /\
  (probe_budget (exec onEmbeddedMessagingReady w0) <= maxAttempts)%nat.
Proof.
  intros Ht Hp. unfold exec. rewrite onEmbeddedMessagingReady_effect.
  unfold timers_live, probe_budget.
  destruct (businessHoursValue (vars w0));
    cbn [snd timers probeLog with_vars with_timers]; rewrite Ht, Hp.
  - split; [ constructor | cbn; lia ].
  - cbn [insert_timer attempts_left attempts List.length].
    split; [ constructor; [ cbn; unfold maxAttempts; lia | constructor ] | lia ].
Qed.

(** C3, as stated, fails: every messaging-ready event that arrives
    while the Resolved State is unset starts a polling chain with an
    attempt counter of its own.  With a second event 500 ms after the
    first and an API that keeps answering [undefined], the two chains
    query the API nine times before the fallback of the first chain
    resolves the business hours. *)
Lemma second_ready_event_starts_second_chain :
  let w := run api_undefined
               [Deliver 0 MessagingReady; Deliver 500 MessagingReady;
                Fire; Fire; Fire; Fire; Fire; Fire; Fire; Fire; Fire; Fire]
               (initial_world 0 0 page_button_ready) in
  rev (probeLog w) =
    [1000; 1500; 3000; 3500; 6000; 6500; 10000; 10500; 15000] /\
  (5 < List.length (probeLog w))%nat /\
  resolved w = (Some true, Some "default_fallback").
Proof. vm_compute. repeat split; lia. Qed.

(** C3, amended. After a start of the scheduler at time [t0] on an idle
    page, along every schedule of listener turns, timer turns and
    widget changes: if no further messaging-ready event arrives, the
    availability API is queried at most five times, the queries being
    the first ones of the times [t0 + 1000], [t0 + 3000], [t0 + 6000],
    [t0 + 10000], [t0 + 15000] in this order; each further
    messaging-ready event may start one more chain, so in general the
    API is queried at most five times per messaging-ready event, also
    along a schedule that runs from the idle page itself; and no turn
    of the event loop taken in a state whose Resolved State is set
    queries it ([tryApiCheck] tests the Resolved State before it
    queries). *)
Theorem probing_is_bounded api steps w0
  (Hidle : timers w0 = [])
  (Hlog : probeLog w0 = []) :
  let t0 := now w0 in
  let w := run api steps (exec onEmbeddedMessagingReady w0) in
  cumulative t0 delays =
    [t0 + 1000; t0 + 3000; t0 + 6000; t0 + 10000; t0 + 15000] /\
  (forallb not_ready steps = true ->
   (exists n, (n <= 5)%nat /\ rev (probeLog w) = firstn n (cumulative t0 delays)) /\
   (List.length (probeLog w) <= 5)%nat) /\
  (List.length (probeLog w) <= 5 * (1 + ready_count steps))%nat /\
  (List.length (probeLog (run api steps w0)) <= 5 * ready_count steps)%nat /\
  (forall w1 s b, businessHoursValue (vars w1) = Some b ->
                  probeLog (step api w1 s) = probeLog w1) /\
  (forall w1 k b, businessHoursValue (vars w1) = Some b ->
                  tryApiCheck api k w1 = (Normal tt, w1)).
Proof.
  intros t0 w.
  split; [ apply schedule_times | ].
  split.
  { intros Honce.
    destruct (chain_invariant_run api t0 steps _ Honce
                (chain_invariant_start w0 Hidle Hlog)) as (n & Hn & Hrev & _).
    fold w in Hrev. unfold maxAttempts in Hn.
    split; [ exists n; auto | ].
    rewrite <- length_rev, Hrev, length_firstn. lia. }
  split.
  { destruct (probe_budget_start w0 Hidle Hlog) as (Hlive & Hstart).
    destruct (probe_budget_run api steps _ Hlive) as (_ & Hrun).
    fold w in Hrun. unfold probe_budget at 1 in Hrun.
    unfold maxAttempts in *. lia. }
  split.
  { assert (Hlive : timers_live w0) by (unfold timers_live; rewrite Hidle; constructor).
    destruct (probe_budget_run api steps w0 Hlive) as (_ & Hrun).
    unfold probe_budget in Hrun. rewrite Hidle, Hlog in Hrun. cbn in Hrun.
    unfold maxAttempts in *. lia. }
  split.
  - intros w1 s b Hb. eapply resolved_step_does_not_probe; eauto.
  - intros w1 k b Hb. eapply tryApiCheck_resolved; eauto.
Qed.

Lemma probing_is_bounded_witness :
  (List.length
     (probeLog (run api_undefined
                    [Fire; Fire; Deliver 7000 BusinessHoursStarted; Fire; Fire]
                    (exec onEmbeddedMessagingReady
                          (initial_world 0 0 page_button_ready)))) <= 5)%nat.
Proof.
  exact (proj2 (proj1 (proj2
           (probing_is_bounded api_undefined
              [Fire; Fire; Deliver 7000 BusinessHoursStarted; Fire; Fire]
              (initial_world 0 0 page_button_ready) eq_refl eq_refl))
           eq_refl)).
Defined.

(** A failed attempt that is not the last one completes normally: the
    query is logged and the next attempt is registered, nothing else
    changes. *)
Lemma failed_attempt_registers_next api k w :
  businessHoursValue (vars w) = None ->
  probe_fails (api (List.length (probeLog w))) = true ->
  (S k < maxAttempts)%nat ->
  tryApiCheck api k w =
  (Normal tt,
   with_timers (insert_timer (mkTimer (now w + nth (S k) delays 0) (S k)))
               (log_probe w)).
Proof.
  intros Hunset Hfail Hlt.
  unfold tryApiCheck, bind, get. rewrite Hunset.
  unfold try_catch, call_isWithinBusinessHours, bind.
  apply Nat.ltb_lt in Hlt.
  destruct (api (List.length (probeLog w))) as [v|]; cbn in Hfail.
  - apply negb_true_iff in Hfail.
    rewrite (setBusinessHours_non_boolean v "api" (log_probe w) Hfail).
    rewrite Hlt. reflexivity.
  - unfold ret. rewrite Hlt. reflexivity.
Qed.

(** The last failed attempt resolves to the fail-open default. *)
Lemma last_failed_attempt_falls_back api k w :
  businessHoursValue (vars w) = None ->
  probe_fails (api (List.length (probeLog w))) = true ->
  (maxAttempts <= S k)%nat ->
  let w' := exec (tryApiCheck api k) w in
  vars w' = set_resolved true "default_fallback" (vars w) /\
  timers w' = timers w /\
  now w' = now w /\
  probeLog w' = now w :: probeLog w.
Proof.
  intros Hunset Hfail Hge. cbv zeta.
  unfold exec, tryApiCheck, bind, get. rewrite Hunset.
  unfold try_catch, call_isWithinBusinessHours, bind.
  apply Nat.ltb_ge in Hge.
  pose proof (setBusinessHours_bool_vars true "default_fallback" (log_probe w)) as Hv.
  pose proof (setBusinessHours_frame (JBool true) "default_fallback" (log_probe w))
    as (Ht & Hn & Hp).
  unfold exec in *.
  destruct (api (List.length (probeLog w))) as [v|]; cbn in Hfail.
  - apply negb_true_iff in Hfail.
    rewrite (setBusinessHours_non_boolean v "api" (log_probe w) Hfail).
    rewrite Hge.
    destruct (setBusinessHours (JBool true) "default_fallback" (log_probe w))
      as [[?|] w1]; cbn in *; auto.
  - change (ret false (log_probe w)) with (Normal false, log_probe w).
    cbv iota beta. rewrite Hge.
    destruct (setBusinessHours (JBool true) "default_fallback" (log_probe w))
      as [[?|] w1]; cbn in *; auto.
Qed.

(** A turn that is neither a timer, nor a messaging-ready event, nor an
    event carrying a boolean leaves the Resolved State, the timers and
    the probe log as they are. *)
Lemma push_free_frame api w s :
  push_free s = true ->
  let w' := step api w s in
  businessHoursValue (vars w') = businessHoursValue (vars w) /\
  businessHoursSource (vars w') = businessHoursSource (vars w) /\
  isWithinBusinessHours (vars w') = isWithinBusinessHours (vars w) /\
  timers w' = timers w /\
  probeLog w' = probeLog w.
Proof.
  intros Hs. destruct s as [t e| |x]; cbn in Hs; try discriminate; cbn [step].
  - destruct e as [[v|]| | | | |d]; try discriminate; cbn [handle]; cbv zeta.
    + apply negb_true_iff in Hs. unfold exec.
      rewrite (snapshot_non_boolean v (with_now t w) Hs). cbn. auto.
    + cbn. auto.
    + destruct (updateChatAvailability_frame (JStr "button_created") (with_now t w))
        as (Hv & Ht & _ & Hp).
      unfold onEmbeddedMessagingButtonCreated. rewrite Hv, Ht, Hp. cbn. auto.
    + unfold exec. rewrite session_update_effect.
      repeat match goal with
             | |- context [if ?c then _ else _] => destruct c
             end; cbn; auto.
  - cbn. auto.
Qed.

Lemma failing_chain_fire api t0 n w :
  (forall m, probe_fails (api m) = true) ->
  failing_chain t0 n w -> failing_chain t0 (S n) (step api w Fire).
Proof.
  intros Hfail (Hlow & Hhigh). unfold maxAttempts in *. cbn [step].
  destruct (Nat.lt_ge_cases n 5) as [Hn | Hn].
  - destruct (Hlow Hn) as (Hunset & Htm & Hlog). rewrite Htm. cbn [attempts due].
    set (w1 := with_now _ (with_timers _ w)).
    assert (Hunset1 : businessHoursValue (vars w1) = None) by exact Hunset.
    destruct (Nat.lt_ge_cases (S n) 5) as [Hn' | Hn'].
    + unfold exec.
      rewrite (failed_attempt_registers_next api n w1 Hunset1 (Hfail _) Hn').
      split; [ intros _ | unfold maxAttempts; lia ].
      subst w1. rewrite schedule_times in *. cbn. rewrite Hlog.
      split; [ exact Hunset | ].
      destruct n as [|[|[|[|n]]]]; try lia; cbn;
        (split; [ do 2 f_equal; lia | reflexivity ]).
    + destruct (last_failed_attempt_falls_back api n w1 Hunset1 (Hfail _) Hn')
        as (Hv & Ht & _ & Hp).
      split; [ unfold maxAttempts; lia | intros _ ].
      unfold resolved. rewrite Hv, Ht, Hp. subst w1.
      rewrite schedule_times in *. cbn. rewrite Hlog.
      assert (n = 4%nat) as -> by lia. cbn. auto.
  - destruct (Hhigh Hn) as (Hres & Hiw & Htm & Hlog). rewrite Htm.
    split; [ unfold maxAttempts; lia | auto ].
Qed.

Lemma failing_chain_push api t0 n w s :
  push_free s = true ->
  failing_chain t0 n w -> failing_chain t0 n (step api w s).
Proof.
  intros Hs (Hlow & Hhigh).
  destruct (push_free_frame api w s Hs) as (Hv & Hsrc & Hiw & Ht & Hp).
  unfold failing_chain, resolved. rewrite Hv, Hsrc, Hiw, Ht, Hp. auto.
Qed.

Lemma failing_chain_run api t0 steps n w :
  (forall m, probe_fails (api m) = true) ->
  forallb (fun s => is_fire s || push_free s) steps = true ->
  failing_chain t0 n w ->
  failing_chain t0 (n + fired steps) (run api steps w).
Proof.
  intros Hfail. unfold run, fired. revert n w.
  induction steps as [|s steps IH]; intros n w Hs H; cbn [fold_left filter].
  - cbn. now rewrite Nat.add_0_r.
  - cbn [forallb] in Hs. apply andb_prop in Hs as (Hs1 & Hs2).
    destruct (is_fire s) eqn:Hf.
    + destruct s; try discriminate. cbn [List.length].
      rewrite Nat.add_succ_r.
      apply (IH (S n)); [ exact Hs2 | ]. now apply failing_chain_fire.
    + cbn in Hs1. apply IH; [ exact Hs2 | ]. now apply failing_chain_push.
Qed.

Lemma failing_chain_start w0 :
  businessHoursValue (vars w0) = None -> timers w0 = [] -> probeLog w0 = [] ->
  failing_chain (now w0) 0 (exec onEmbeddedMessagingReady w0).
Proof.
  intros Hunset Ht Hp. destruct w0 as [g pg t ts pl]; cbn in *. subst ts pl.
  unfold exec. rewrite onEmbeddedMessagingReady_effect. cbn. rewrite Hunset. cbn.
  split; [ intros _ | unfold maxAttempts; lia ].
  auto.
Qed.

(** C4. A probe attempt that raises or answers a non-boolean, and is
    not the last one, completes normally and registers the next
    attempt.  When every attempt of a chain started at [t0] fails and
    no event resolves the business hours, the Resolved State stays
    unset through the first four timer turns, and the fifth timer turn,
    at clock [t0 + 15000], resolves it to available with source
    'default_fallback'; it stays so afterwards. *)
Theorem exhausted_probes_fail_open api steps w0
  (Hunset : businessHoursValue (vars w0) = None)
  (Hidle : timers w0 = [])
  (Hlog : probeLog w0 = [])
  (Hfail : forall n, probe_fails (api n) = true)
  (Hquiet : forallb (fun s => is_fire s || push_free s) steps = true) :
  let t0 := now w0 in
  let w := run api steps (exec onEmbeddedMessagingReady w0) in
  (forall k w1,
     businessHoursValue (vars w1) = None -> (S k < maxAttempts)%nat ->
     tryApiCheck api k w1 =
     (Normal tt,
      with_timers (insert_timer (mkTimer (now w1 + nth (S k) delays 0) (S k)))
                  (log_probe w1))) /\
  ((fired steps < 5)%nat ->
   businessHoursValue (vars w) = None /\
   timers w = [mkTimer (nth (fired steps) (cumulative t0 delays) 0) (fired steps)]) /\
  (fired steps = 4%nat ->
   resolved (step api w Fire) = (Some true, Some "default_fallback") /\
   now (step api w Fire) = t0 + 15000) /\
  ((5 <= fired steps)%nat ->
   resolved w = (Some true, Some "default_fallback") /\
   isWithinBusinessHours (vars w) = JBool true /\
   rev (probeLog w) = cumulative t0 delays).
Proof.
  intros t0 w.
  pose proof (failing_chain_run api t0 steps 0 _ Hfail Hquiet
                (failing_chain_start w0 Hunset Hidle Hlog)) as Hrun.
  fold w in Hrun. cbn [Nat.add] in Hrun.
  split; [ | split; [ | split ] ].
  - intros k w1 Hu Hk. now apply failed_attempt_registers_next.
  - intros Hlt. destruct Hrun as (Hlow & _).
    destruct (Hlow Hlt) as (Hu & Htm & _). auto.
  - intros H4.
    pose proof (failing_chain_fire api t0 _ w Hfail Hrun) as (_ & Hhigh).
    rewrite H4 in Hhigh. destruct (Hhigh (Nat.le_refl 5)) as (Hres & _).
    split; [ exact Hres | ].
    destruct Hrun as (Hlow & _). rewrite H4 in Hlow.
    destruct (Hlow ltac:(unfold maxAttempts; lia)) as (Hu & Htm & _).
    cbn [step]. rewrite Htm. cbn [attempts due].
    set (w1 := with_now _ (with_timers _ w)).
    destruct (tryApiCheck_effect api 4 w1) as (Hnow & _).
    rewrite Hnow. subst w1. cbn [now with_now]. rewrite schedule_times.
    reflexivity.
  - intros Hge. destruct Hrun as (_ & Hhigh).
    destruct (Hhigh Hge) as (Hres & Hiw & _ & Hp). auto.
Qed.

Lemma exhausted_probes_fail_open_witness :
  let w := run api_undefined [Fire; Fire; Fire; Fire; Fire]
               (exec onEmbeddedMessagingReady (initial_world 0 0 page_loading)) in
  resolved w = (Some true, Some "default_fallback") /\
  isWithinBusinessHours (vars w) = JBool true /\
  rev (probeLog w) = cumulative 0 delays.
Proof.
  exact (proj2 (proj2 (proj2
           (exhausted_probes_fail_open api_undefined [Fire; Fire; Fire; Fire; Fire]
              (initial_world 0 0 page_loading)
              eq_refl eq_refl eq_refl (fun _ => eq_refl) eq_refl)))
         (le_n 5)).
Defined.

(** ** The scenarios of the specification, run on the model *)

(** A snapshot carrying [true] at load: the chat button is shown at
    once and the scheduler, started afterwards, never queries the API. *)
Example scenario_snapshot_true :
  let w := run api_undefined
               [Deliver 0 (WithinBusinessHours (Some (JBool true)));
                Deliver 0 MessagingReady; Fire; Fire]
               (initial_world 0 0 page_button_ready) in
  resolved w = (Some true, Some "event") /\
  chatShown w = true /\ offlineVisible w = false /\
  probeLog w = [] /\ timers w = [].
Proof. cbv. auto. Qed.

(** A snapshot carrying [undefined], then an API that answers
    [undefined], [undefined], [true]: resolved from the API at 6 s. *)
Example scenario_probe_third_attempt :
  let w := run api_true_on_third
               [Deliver 0 (WithinBusinessHours (Some JUndefined));
                Deliver 0 MessagingReady; Fire; Fire; Fire; Fire]
               (initial_world 0 0 page_button_ready) in
  resolved w = (Some true, Some "api") /\
  now w = 6000 /\
  rev (probeLog w) = [1000; 3000; 6000] /\
  timers w = [].
Proof. cbv. auto. Qed.

(** No event at all and an API that raises five times: resolved by the
    fail-open default at 15 s, with the chat button shown. *)
Example scenario_all_probes_raise :
  let w := run api_raising
               [Deliver 0 MessagingReady; Fire; Fire; Fire; Fire; Fire]
               (initial_world 0 0 page_button_ready) in
  resolved w = (Some true, Some "default_fallback") /\
  now w = 15000 /\
  rev (probeLog w) = [1000; 3000; 6000; 10000; 15000] /\
  chatShown w = true.
Proof. cbv. auto. Qed.

(** A routing failure after launch demotes, and an active session
    promotes again. *)
Example scenario_demotion_then_promotion :
  let ended := mkSessionDetail (JStr "Ended") (JStr "NoAgentsAvailable") None JUndefined in
  let w1 := run api_undefined
                [Deliver 0 (WithinBusinessHours (Some (JBool true)));
                 Deliver 5000 (SessionStatusUpdate ended);
                 Deliver 5000 ButtonCreated]
                (initial_world 0 0 page_button_ready) in
  let w2 := run api_undefined
                [Deliver 9000 (SessionStatusUpdate (bare_status "Active"));
                 Deliver 9000 ButtonCreated] w1 in
  (chatShown w1 = false /\ offlineVisible w1 = true) /\
  (chatShown w2 = true /\ offlineVisible w2 = false).
Proof. cbv. auto. Qed.

(** * Further properties of the script *)

(** ** Rendering twice *)

(** X1. [updateChatAvailability] is idempotent: a second call with the
    same reason, right after the first, ends the same way and leaves
    the page exactly as the first call left it, in every state of the
    widget. *)
Theorem updateChatAvailability_idempotent reason w :
  updateChatAvailability reason (exec (updateChatAvailability reason) w) =
  (fst (updateChatAvailability reason w), exec (updateChatAvailability reason) w).
Proof.
  js_unfold. destruct w as [[bv bs iw na st] [x os om] t ts pl]. cbn.
  destruct x as [|[|]|v]; destruct (truthy iw) eqn:Hiw; destruct na;
    destruct (truthy reason) eqn:Hr;
    repeat (progress (cbn; rewrite ?Hiw, ?Hr)); reflexivity.
Qed.

(** ** Invariants of the script variables *)

Section VarsInvariant.

Variable Q : Globals -> Prop.

(** [Q] survives every assignment [setBusinessHours] can make. *)
Hypothesis Q_resolved :
  forall b s g, signal_pair b s -> Q g -> Q (set_resolved b s g).

Lemma on_vars_frame w w' : vars w' = vars w -> on_vars Q w -> on_vars Q w'.
Proof. unfold on_vars. now intros ->. Qed.

Lemma on_vars_setBusinessHours v s :
  (forall b, v = JBool b -> signal_pair b s) ->
  preserves (on_vars Q) (setBusinessHours v s).
Proof.
  intros Hpair. destruct v; try apply preserves_ret.
  unfold setBusinessHours.
  apply preserves_bind; [ | intros _ ].
  - apply preserves_modify. intros w H. apply Q_resolved; auto.
  - apply preserves_bind; [ | intros _; apply preserves_ret ].
    apply preserves_updateChatAvailability. exact on_vars_frame.
Qed.

Lemma on_vars_tryApiCheck api k : preserves (on_vars Q) (tryApiCheck api k).
Proof.
  unfold tryApiCheck.
  apply preserves_bind; [ apply preserves_get | intros w0 ].
  destruct (businessHoursValue (vars w0)); [ apply preserves_ret | ].
  apply preserves_bind.
  - apply preserves_try_catch; [ | apply preserves_ret ].
    apply preserves_bind.
    + intros w H. eapply on_vars_frame; [ | exact H ]. reflexivity.
    + intros v. apply on_vars_setBusinessHours. intros; right; left; reflexivity.
  - intros stop. destruct stop; [ apply preserves_ret | ].
    destruct (_ <? _)%nat.
    + apply preserves_modify. intros w H.
      eapply on_vars_frame; [ | exact H ]. reflexivity.
    + apply preserves_bind; [ | intros; apply preserves_ret ].
      apply on_vars_setBusinessHours. intros b Hb. injection Hb as <-.
      do 4 right. auto.
Qed.

(** Every listener except the session-status and the messaging-ready
    ones. *)
Lemma on_vars_handle_other e :
  (forall d, e <> SessionStatusUpdate d) -> e <> MessagingReady ->
  preserves (on_vars Q) (handle e).
Proof.
  intros He Hr. destruct e; cbn [handle].
  - unfold onEmbeddedMessagingWithinBusinessHours.
    apply preserves_bind; [ | intros; apply preserves_ret ].
    apply on_vars_setBusinessHours. intros; left; reflexivity.
  - unfold onEmbeddedMessagingBusinessHoursStarted.
    apply preserves_bind; [ | intros; apply preserves_ret ].
    apply on_vars_setBusinessHours. intros b Hb. injection Hb as <-.
    right; right; left; auto.
  - unfold onEmbeddedMessagingBusinessHoursEnded.
    apply preserves_bind; [ | intros; apply preserves_ret ].
    apply on_vars_setBusinessHours. intros b Hb. injection Hb as <-.
    right; right; right; left; auto.
  - congruence.
  - apply preserves_updateChatAvailability. exact on_vars_frame.
  - now destruct (He d).
Qed.

Lemma on_vars_step_other api w s :
  is_session_update s = false -> not_ready s = true ->
  on_vars Q w -> on_vars Q (step api w s).
Proof.
  intros Hs Hr H. destruct s as [t e| |x]; cbn [step].
  - apply on_vars_handle_other; [ | | exact H ].
    + intros d ->. discriminate.
    + intros ->. discriminate.
  - destruct (timers w) as [|tm rest]; [ exact H | ].
    apply on_vars_tryApiCheck. exact H.
  - exact H.
Qed.

(** [Q] also survives the reset of the demotion flag. *)
Hypothesis Q_reset : forall g, Q g -> Q (set_noAgentsAvailable false g).

Lemma on_vars_ready : preserves (on_vars Q) onEmbeddedMessagingReady.
Proof.
  intros w H. unfold exec. rewrite onEmbeddedMessagingReady_effect.
  destruct (businessHoursValue (vars w)); apply Q_reset; exact H.
Qed.

(** Every turn that is not a session-status update. *)
Lemma on_vars_step_quiet api w s :
  is_session_update s = false -> on_vars Q w -> on_vars Q (step api w s).
Proof.
  intros Hs H. destruct (not_ready s) eqn:Hr;
    [ now apply on_vars_step_other | ].
  destruct s as [t [| | | | |d]| |x]; try discriminate.
  cbn [step handle]. apply on_vars_ready. exact H.
Qed.


(** [Q] also survives every change of the demotion flag. *)
Hypothesis Q_demotion : forall b g, Q g -> Q (set_noAgentsAvailable b g).

Lemma on_vars_step api w s : on_vars Q w -> on_vars Q (step api w s).
Proof.
  intros H. destruct (is_session_update s) eqn:Hs;
    [ | now apply on_vars_step_quiet ].
  destruct s as [t [| | | | |d]| |x]; try discriminate.
  cbn [step handle]. unfold exec. rewrite session_update_effect.
  repeat match goal with
         | |- context [if ?c then _ else _] => destruct c
         end; cbn; try exact H; apply Q_demotion; exact H.
Qed.

Lemma on_vars_run api steps w : on_vars Q w -> on_vars Q (run api steps w).
Proof.
  unfold run. revert w.
  induction steps as [|s steps IH]; intros w H; cbn; [ exact H | ].
  apply IH, on_vars_step, H.
Qed.

End VarsInvariant.

(** ** The waiting threshold *)




Lemma resolved_step_stays api w s :
  businessHoursValue (vars w) <> None ->
  businessHoursValue (vars (step api w s)) <> None.
Proof.
  apply (on_vars_step (fun g => businessHoursValue g <> None)).
  - intros b s0 g _ _. discriminate.
  - intros g H. exact H.
  - intros b g H. exact H.
Qed.

(** X2. The Resolved State is never unset again: from a state in which
    [businessHoursValue] holds a boolean, no schedule of listener
    turns, timer turns and widget changes brings it back to [null]. *)
Theorem resolved_state_never_unset api steps w
  (Hset : businessHoursValue (vars w) <> None) :
  businessHoursValue (vars (run api steps w)) <> None.
Proof.
  apply (on_vars_run (fun g => businessHoursValue g <> None)).
  - intros b s g _ _. discriminate.
  - intros g H. exact H.
  - intros b g H. exact H.
  - exact Hset.
Qed.

Lemma resolved_state_never_unset_witness :
  businessHoursValue
    (vars (run api_undefined
               [Deliver 10 (WithinBusinessHours (Some JUndefined));
                Deliver 20 MessagingReady; Fire;
                Deliver 30 (SessionStatusUpdate (bare_status "Ended"))]
               (exec onEmbeddedMessagingBusinessHoursEnded
                     (initial_world 0 0 page_button_ready)))) <> None.
Proof.
  apply (resolved_state_never_unset api_undefined).
  cbv. discriminate.
Defined.

(** X3. Source tracking: in every state reached from page load the
    Resolved State is either unset, with no source, or a boolean
    together with one of the five sources of the script, where
    'hours_started_event' and 'default_fallback' only ever carry [true]
    and 'hours_ended_event' only ever carries [false]. *)
Theorem resolved_source_is_tracked api steps ws t0 p :
  tracked_source (vars (run api steps (initial_world ws t0 p))).
Proof.
  apply (on_vars_run tracked_source).
  - intros b s g Hp _. exact Hp.
  - intros g H. exact H.
  - intros b g H. exact H.
  - exact I.
Qed.



Lemma resolved_step_timers api w s b :
  businessHoursValue (vars w) = Some b ->
  (List.length (timers (step api w s)) <= List.length (timers w))%nat.
Proof.
  intros Hb. destruct s as [t e| |x]; cbn [step].
  - assert (He : e = MessagingReady \/ e <> MessagingReady)
      by (destruct e; (left; reflexivity) || (right; discriminate)).
    destruct He as [-> | He].
    + cbn [handle]. unfold exec.
      rewrite (onEmbeddedMessagingReady_resolved (with_now t w) b Hb). cbn. lia.
    + destruct (handle_frame e (with_now t w) He) as (-> & _). cbn. lia.
  - destruct (timers w) as [|tm rest] eqn:Ht; [ rewrite Ht; cbn; lia | ].
    unfold exec.
    rewrite (tryApiCheck_resolved api (attempts tm) _ b); [ cbn; lia | exact Hb ].
  - cbn. lia.
Qed.

(** X5. Once the Resolved State is set, polling is over for the rest
    of the page life: along every schedule, even one that delivers
    further messaging-ready events, the availability API is never
    queried again and no timer is added (pending ones only drain). *)
Theorem resolved_page_never_probes_again api steps w
  (Hset : businessHoursValue (vars w) <> None) :
  probeLog (run api steps w) = probeLog w /\
  (List.length (timers (run api steps w)) <= List.length (timers w))%nat.
Proof.
  unfold run. revert w Hset.
  induction steps as [|s steps IH]; intros w Hset; cbn [fold_left].
  - split; [ reflexivity | lia ].
  - destruct (businessHoursValue (vars w)) as [b|] eqn:Hb; [ | congruence ].
    assert (Hset' : businessHoursValue (vars w) <> None) by (rewrite Hb; exact Hset).
    destruct (IH (step api w s) (resolved_step_stays api w s Hset')) as (Hp & Ht).
    rewrite Hp, (resolved_step_does_not_probe api w s b Hb).
    split; [ reflexivity | ].
    pose proof (resolved_step_timers api w s b Hb). lia.
Qed.

Lemma resolved_page_never_probes_again_witness :
  probeLog (run api_true_on_third
                [Deliver 500 (WithinBusinessHours (Some (JBool false)));
                 Fire; Deliver 700 MessagingReady; Fire]
                (exec onEmbeddedMessagingReady
                      (initial_world 0 0 page_button_ready)))
  = [].
Proof.
  pose proof (resolved_page_never_probes_again api_true_on_third
                [Fire; Deliver 700 MessagingReady; Fire]
                (step api_true_on_third
                      (exec onEmbeddedMessagingReady
                            (initial_world 0 0 page_button_ready))
                      (Deliver 500 (WithinBusinessHours (Some (JBool false))))))
    as H.
  exact (proj1 (H ltac:(cbv; discriminate))).
Defined.

(** ** Bounded latency of the polling chain *)

Lemma setBusinessHours_then_ret_vars b source w :
  vars (snd (bind (setBusinessHours (JBool b) source) (fun _ => ret tt) w)) =
  set_resolved b source (vars w).
Proof.
  pose proof (setBusinessHours_bool_vars b source w) as H.
  unfold exec, bind, ret in *.
  destruct (setBusinessHours (JBool b) source w) as [[?|] w1]; exact H.
Qed.

(** [tryApiCheck] in an unresolved state, by the outcome of the query. *)
Lemma tryApiCheck_unresolved api k w :
  businessHoursValue (vars w) = None ->
  tryApiCheck api k w =
  match
    match api (List.length (probeLog w)) with
    | Normal v => setBusinessHours v "api" (log_probe w)
    | Thrown => (Thrown, log_probe w)
    end
  with
  | (Normal true, w1) => (Normal tt, w1)
  | (_, w1) =>
      (if (S k <? maxAttempts)%nat
       then setTimeout_tryApiCheck (S k) (nth (S k) delays 0)
       else bind (setBusinessHours (JBool true) "default_fallback")
                 (fun _ => ret tt)) w1
  end.
Proof.
  intros Hv. unfold tryApiCheck. unfold bind at 1, get. rewrite Hv.
  unfold bind at 1. unfold try_catch, call_isWithinBusinessHours.
  unfold bind at 1.
  destruct (api (List.length (probeLog w))) as [v|]; [ | reflexivity ].
  destruct (setBusinessHours v "api" (log_probe w)) as [[[|]|] w1]; reflexivity.
Qed.

(** If [tryApiCheck] leaves the Resolved State unset, it was not the
    last attempt and the next one is registered. *)
Lemma tryApiCheck_unresolved_after api k w :
  businessHoursValue (vars (exec (tryApiCheck api k) w)) = None ->
  (S k < maxAttempts)%nat /\
  timers (exec (tryApiCheck api k) w) =
  insert_timer (mkTimer (now w + nth (S k) delays 0) (S k)) (timers w).
Proof.
  unfold exec.
  destruct (businessHoursValue (vars w)) eqn:Hv.
  { rewrite (tryApiCheck_resolved api k w b Hv). cbn. congruence. }
  rewrite (tryApiCheck_unresolved api k w Hv).
  assert (Hfailed :
    forall w1,
      vars w1 = vars w \/ businessHoursValue (vars w1) <> None ->
      timers w1 = timers w -> now w1 = now w ->
      let r := (if (S k <? maxAttempts)%nat
                then setTimeout_tryApiCheck (S k) (nth (S k) delays 0)
                else bind (setBusinessHours (JBool true) "default_fallback")
                          (fun _ => ret tt)) w1 in
      businessHoursValue (vars (snd r)) = None ->
      (S k < maxAttempts)%nat /\
      timers (snd r) =
      insert_timer (mkTimer (now w + nth (S k) delays 0) (S k)) (timers w)).
  { intros w1 Hvars Ht Hn. cbv zeta.
    destruct (Nat.ltb_spec (S k) maxAttempts) as [Hlt|Hge].
    - intros _. split; [ exact Hlt | ]. cbn. now rewrite Ht, Hn.
    - rewrite setBusinessHours_then_ret_vars. cbn. discriminate. }
  destruct (api (List.length (probeLog w))) as [v|].
  - destruct (is_boolean v) eqn:Hb.
    + destruct v; try discriminate.
      pose proof (setBusinessHours_frame (JBool b) "api" (log_probe w))
        as (Ht & Hn & _).
      pose proof (setBusinessHours_bool_vars b "api" (log_probe w)) as Hvars.
      unfold exec in *.
      destruct (setBusinessHours (JBool b) "api" (log_probe w)) as [[[|]|] w1];
        cbn [fst snd] in *.
      * intros Hnone. rewrite Hvars in Hnone. discriminate.
      * apply Hfailed; [ right; rewrite Hvars; discriminate | exact Ht | exact Hn ].
      * apply Hfailed; [ right; rewrite Hvars; discriminate | exact Ht | exact Hn ].
    + rewrite (setBusinessHours_non_boolean v "api" (log_probe w) Hb).
      apply Hfailed; auto.
  - apply Hfailed; auto.
Qed.

Lemma chain_pending_step api n w s :
  not_ready s = true ->
  chain_pending n w ->
  chain_pending (if is_fire s then S n else n) (step api w s).
Proof.
  intros Hs Hpend Hunset.
  assert (Hbefore : businessHoursValue (vars w) = None).
  { destruct (businessHoursValue (vars w)) as [b|] eqn:Hb; [ | reflexivity ].
    exfalso. apply (resolved_step_stays api w s); [ rewrite Hb; discriminate | ].
    exact Hunset. }
  destruct (Hpend Hbefore) as (Hn & d & Htm).
  destruct s as [t e| |x]; cbn [is_fire step] in *.
  - assert (He : e <> MessagingReady) by (destruct e; cbn in Hs; congruence).
    destruct (handle_frame e (with_now t w) He) as (Ht & _).
    rewrite Ht. cbn. eauto.
  - rewrite Htm in *. cbn [attempts due] in *.
    destruct (tryApiCheck_unresolved_after api n _ Hunset) as (Hlt & Ht).
    rewrite Ht. cbn. eauto.
  - cbn. eauto.
Qed.

Lemma chain_pending_run api steps n w :
  forallb not_ready steps = true ->
  chain_pending n w ->
  chain_pending (n + fired steps) (run api steps w).
Proof.
  unfold run, fired. revert n w.
  induction steps as [|s steps IH]; intros n w Hs H; cbn [fold_left filter].
  - cbn. now rewrite Nat.add_0_r.
  - cbn [forallb] in Hs. apply andb_prop in Hs as (Hs1 & Hs2).
    pose proof (chain_pending_step api n w s Hs1 H) as Hstep.
    destruct (is_fire s); cbn [List.length].
    + rewrite Nat.add_succ_r. apply (IH (S n)); assumption.
    + apply IH; assumption.
Qed.

(** X6. Bounded latency.  After one start of the scheduler, whatever
    the availability API answers or raises and whatever other events
    arrive in between, the Resolved State is set once five timer turns
    have run; by C3 the fifth one is due 15 s after the start. *)
Theorem resolved_after_five_timer_turns api steps w0
  (Hidle : timers w0 = [])
  (Honce : forallb not_ready steps = true)
  (Hfive : (5 <= fired steps)%nat) :
  businessHoursValue
    (vars (run api steps (exec onEmbeddedMessagingReady w0))) <> None.
Proof.
  intros Hunset.
  assert (Hstart : chain_pending 0 (exec onEmbeddedMessagingReady w0)).
  { clear Hunset. intros Hu.
    destruct w0 as [g pg t ts pl]. cbn in Hidle. subst ts.
    unfold exec, onEmbeddedMessagingReady, bind, get in *. cbn in *.
    destruct (businessHoursValue g) eqn:Hv; cbn in *; [ congruence | ].
    unfold maxAttempts. split; [ lia | eauto ]. }
  destruct (chain_pending_run api steps 0 _ Honce Hstart Hunset) as (Hlt & _).
  unfold maxAttempts in Hlt. cbn [Nat.add] in Hlt. lia.
Qed.

Lemma resolved_after_five_timer_turns_witness :
  businessHoursValue
    (vars (run api_true_on_third
               [Fire; Deliver 1500 ButtonCreated; Fire; Fire; Fire; Fire]
               (exec onEmbeddedMessagingReady (initial_world 0 0 page_loading))))
  <> None.
Proof.
  exact (resolved_after_five_timer_turns api_true_on_third
           [Fire; Deliver 1500 ButtonCreated; Fire; Fire; Fire; Fire]
           (initial_world 0 0 page_loading) eq_refl eq_refl (le_n 5)).
Defined.

(** ** Outcome of a single probe attempt *)

Lemma render_completes reason w :
  widget (page w) <> NoButton true ->
  fst (updateChatAvailability reason w) = Normal tt.
Proof.
  intros H. js_unfold.
  destruct w as [[bv bs iw na st] [x os om] t ts pl]; cbn in *.
  destruct x as [|[|]|v]; try congruence; destruct (truthy iw); destruct na;
    destruct (truthy reason); reflexivity.
Qed.

Lemma render_throws reason w :
  widget (page w) = NoButton true ->
  updateChatAvailability reason w = (Thrown, w).
Proof.
  intros H. js_unfold.
  destruct w as [[bv bs iw na st] [x os om] t ts pl]; cbn in *. subst x.
  destruct (truthy iw); destruct na; reflexivity.
Qed.

Lemma setBusinessHours_accepts b source w :
  widget (page w) <> NoButton true ->
  setBusinessHours (JBool b) source w =
  (Normal true,
   exec (updateChatAvailability (JStr source))
        (with_vars (set_resolved b source) w)).
Proof.
  intros H. unfold setBusinessHours, exec, bind, modify, ret.
  pose proof (render_completes (JStr source)
                (with_vars (set_resolved b source) w) H) as Hc.
  destruct (updateChatAvailability (JStr source) _) as [[[]|] w1];
    cbn in *; [ reflexivity | discriminate ].
Qed.

(** With a hosted toggle that raises, [setBusinessHours] assigns the
    Resolved State and then throws out of its render. *)
Lemma setBusinessHours_throws b source w :
  widget (page w) = NoButton true ->
  setBusinessHours (JBool b) source w =
  (Thrown, with_vars (set_resolved b source) w).
Proof.
  intros H. unfold setBusinessHours, bind, modify.
  now rewrite (render_throws (JStr source) (with_vars (set_resolved b source) w) H).
Qed.

(** An attempt that is not the last one always completes: whatever is
    thrown inside the [try] block is caught. *)
Lemma early_attempt_completes api k w :
  (S k < maxAttempts)%nat ->
  fst (tryApiCheck api k w) = Normal tt.
Proof.
  intros Hk. apply Nat.ltb_lt in Hk.
  destruct (businessHoursValue (vars w)) as [b|] eqn:Hv.
  - now rewrite (tryApiCheck_resolved api k w b Hv).
  - rewrite (tryApiCheck_unresolved api k w Hv), Hk.
    destruct (api (List.length (probeLog w))) as [v|]; [ | reflexivity ].
    destruct (setBusinessHours v "api" (log_probe w)) as [[[|]|] w1]; reflexivity.
Qed.

(** ** Exceptions of the hosted toggle *)

(** C9, amended. While the widget API object does not exist, the show
    and hide functions of the chat button skip the hosted call behind
    their existence test instead of throwing, so a render completes
    (leaving the chat button off screen); once the button exists, the
    next render applies the toggle that was skipped.  An exception
    raised by the hosted toggle itself is caught neither by the toggle
    functions nor by [updateChatAvailability] nor by
    [setBusinessHours]: it leaves the business-hours and
    button-created listeners.  The only handler is the [try] block of
    [tryApiCheck]: there a raising render makes the attempt a failed
    one, so an attempt that is not the last completes and, even after
    a boolean answer, registers the next attempt; on the last attempt
    the render of the fallback, which is outside the [try] block, lets
    the exception escape. *)
Theorem missing_widget_api_is_skipped api w reason :
  (widget (page w) = NoUtilAPI ->
   showChatButton w = (Normal tt, w) /\
   hideChatButton w = (Normal tt, w) /\
   completes (updateChatAvailability reason) w /\
   chatShown (exec (updateChatAvailability reason) w) = false /\
   forall v reason',
     let w1 := exec (updateChatAvailability reason) w in
     let w2 := with_page (set_widget (Button v)) w1 in
     let w3 := exec (updateChatAvailability reason') w2 in
     completes (updateChatAvailability reason') w2 /\
     chatShown w3 =
     truthy (isWithinBusinessHours (vars w)) && negb (noAgentsAvailable (vars w))) /\
  (widget (page w) = NoButton true ->
   showChatButton w = (Thrown, w) /\
   hideChatButton w = (Thrown, w) /\
   updateChatAvailability reason w = (Thrown, w) /\
   (forall b source, fst (setBusinessHours (JBool b) source w) = Thrown) /\
   (forall b, fst (handle (WithinBusinessHours (Some (JBool b))) w) = Thrown) /\
   fst (handle BusinessHoursStarted w) = Thrown /\
   fst (handle BusinessHoursEnded w) = Thrown /\
   fst (handle ButtonCreated w) = Thrown /\
   (forall k, (S k < maxAttempts)%nat ->
              fst (tryApiCheck api k w) = Normal tt) /\
   (forall k b, businessHoursValue (vars w) = None ->
                api (List.length (probeLog w)) = Normal (JBool b) ->
                (S k < maxAttempts)%nat ->
                timers (exec (tryApiCheck api k) w) =
                insert_timer (mkTimer (now w + nth (S k) delays 0) (S k))
                             (timers w)) /\
   (forall k, businessHoursValue (vars w) = None ->
              (maxAttempts <= S k)%nat ->
              fst (tryApiCheck api k w) = Thrown)).
Proof.
  split.
  - intros Hmissing.
    split; [ | split; [ | split; [ | split; [ | intros v reason'; cbv zeta; split ] ] ] ].
    + unfold showChatButton, utilAPI_available, bind, get. now rewrite Hmissing.
    + unfold hideChatButton, utilAPI_available, bind, get. now rewrite Hmissing.
    + exists tt. apply render_completes. rewrite Hmissing. discriminate.
    + destruct (render_without_raise reason w) as (_ & Hchat & _);
        [ rewrite Hmissing; discriminate | ].
      unfold exec. rewrite Hchat. unfold has_button. rewrite Hmissing.
      apply andb_false_r.
    + exists tt.
      apply (render_with_button reason'
               (with_page (set_widget (Button v)) (exec (updateChatAvailability reason) w)) v).
      reflexivity.
    + destruct (render_with_button reason'
               (with_page (set_widget (Button v)) (exec (updateChatAvailability reason) w)) v
               eq_refl) as (_ & Hchat & _).
      unfold exec at 1. rewrite Hchat. cbn [vars with_page].
      destruct (updateChatAvailability_frame reason w) as (Hvars & _).
      now rewrite Hvars.
  - intros Hraises.
    assert (Hset : forall b source, fst (setBusinessHours (JBool b) source w) = Thrown).
    { intros b source. now rewrite (setBusinessHours_throws b source w Hraises). }
    assert (Hlistener : forall b source,
              fst (bind (setBusinessHours (JBool b) source) (fun _ => ret tt) w) = Thrown).
    { intros b source. unfold bind.
      now rewrite (setBusinessHours_throws b source w Hraises). }
    split; [ | split; [ | split; [ | split; [ | split; [ | split;
      [ | split; [ | split; [ | split; [ | split ] ] ] ] ] ] ] ] ].
    + unfold showChatButton, utilAPI_available, utilAPI_toggle, bind, get.
      destruct w as [g [x os om] t ts pl]. cbn in *. now subst x.
    + unfold hideChatButton, utilAPI_available, utilAPI_toggle, bind, get.
      destruct w as [g [x os om] t ts pl]. cbn in *. now subst x.
    + now apply render_throws.
    + exact Hset.
    + intros b. apply Hlistener.
    + apply Hlistener.
    + apply Hlistener.
    + cbn [handle]. unfold onEmbeddedMessagingButtonCreated.
      now rewrite (render_throws (JStr "button_created") w Hraises).
    + intros k Hk. now apply early_attempt_completes.
    + intros k b Hunset Hanswer Hk. apply Nat.ltb_lt in Hk. unfold exec.
      rewrite (tryApiCheck_unresolved api k w Hunset), Hanswer.
      rewrite (setBusinessHours_throws b "api" (log_probe w) Hraises), Hk.
      reflexivity.
    + intros k Hunset Hk. apply Nat.ltb_ge in Hk.
      rewrite (tryApiCheck_unresolved api k w Hunset), Hk.
      assert (Hfallback : forall w1,
                widget (page w1) = NoButton true ->
                fst (bind (setBusinessHours (JBool true) "default_fallback")
                          (fun _ => ret tt) w1) = Thrown).
      { intros w1 H1. unfold bind.
        now rewrite (setBusinessHours_throws true "default_fallback" w1 H1). }
      destruct (api (List.length (probeLog w))) as [v|].
      * destruct (is_boolean v) eqn:Hb.
        -- destruct v; try discriminate.
           rewrite (setBusinessHours_throws b "api" (log_probe w) Hraises).
           apply Hfallback. exact Hraises.
        -- rewrite (setBusinessHours_non_boolean v "api" (log_probe w) Hb).
           apply Hfallback. exact Hraises.
      * apply Hfallback. exact Hraises.
Qed.

Lemma missing_widget_api_is_skipped_witness :
  showChatButton (initial_world 0 0 page_loading)
  = (Normal tt, initial_world 0 0 page_loading) /\
  fst (tryApiCheck api_undefined 4 (initial_world 0 15000 page_api_without_button))
  = Thrown.
Proof.
  split.
  - exact (proj1 (proj1 (missing_widget_api_is_skipped api_undefined
                           (initial_world 0 0 page_loading) JNull) eq_refl)).
  - pose proof (proj2 (missing_widget_api_is_skipped api_undefined
                         (initial_world 0 15000 page_api_without_button) JNull)
                      eq_refl) as H.
    exact (proj2 (proj2 (proj2 (proj2 (proj2 (proj2 (proj2 (proj2 (proj2
                   (proj2 H)))))))))
                 4%nat eq_refl (le_n 5)).
Defined.

(** X7. A boolean answer of the availability API, obtained while the
    Resolved State is unset and the render does not throw, ends the
    polling chain: [tryApiCheck] completes, the Resolved State is the
    answer with source 'api', the query is logged at the current time,
    no further attempt is registered, and with the chat button in the
    page the affordances follow the answer. *)
Theorem boolean_probe_answer_resolves api k w b
  (Hunset : businessHoursValue (vars w) = None)
  (Hanswer : api (List.length (probeLog w)) = Normal (JBool b))
  (Hrender : widget (page w) <> NoButton true) :
  let w' := exec (tryApiCheck api k) w in
  completes (tryApiCheck api k) w /\
  resolved w' = (Some b, Some "api") /\
  isWithinBusinessHours (vars w') = JBool b /\
  timers w' = timers w /\
  probeLog w' = now w :: probeLog w /\
  (forall v, widget (page w) = Button v ->
     chatShown w' = b && negb (noAgentsAvailable (vars w)) /\
     offlineVisible w' = negb (b && negb (noAgentsAvailable (vars w)))).
Proof.
  cbv zeta. unfold completes, exec.
  rewrite (tryApiCheck_unresolved api k w Hunset), Hanswer.
  rewrite (setBusinessHours_accepts b "api" (log_probe w) Hrender).
  set (w2 := with_vars (set_resolved b "api") (log_probe w)).
  destruct (updateChatAvailability_frame (JStr "api") w2) as (Hv & Ht & _ & Hp).
  cbn [fst snd]. unfold resolved. rewrite Hv, Ht, Hp.
  split; [ now exists tt | ].
  split; [ reflexivity | ].
  split; [ reflexivity | ].
  split; [ reflexivity | ].
  split; [ reflexivity | ].
  intros vis Hw.
  destruct (render_with_button (JStr "api") w2 vis Hw) as (_ & Hchat & Hoff).
  unfold exec. rewrite Hchat, Hoff. cbn. auto.
Qed.

Lemma boolean_probe_answer_resolves_witness :
  resolved (exec (tryApiCheck (fun _ => Normal (JBool false)) 2)
                 (initial_world 0 6000 page_button_ready))
  = (Some false, Some "api").
Proof.
  exact (proj1 (proj2
           (boolean_probe_answer_resolves (fun _ => Normal (JBool false)) 2
              (initial_world 0 6000 page_button_ready) false
              eq_refl eq_refl ltac:(discriminate)))).
Defined.

(** X8. The render runs inside the [try] block of [tryApiCheck].  When
    the hosted toggle raises, a boolean answer is assigned but the
    attempt is handled as a failed one: before the last attempt the
    Resolved State keeps the answer and the next attempt is registered
    all the same; on the last attempt the fail-open default replaces
    the answer, also when the answer was [false]. *)
Theorem raising_render_turns_answer_into_failure api k w b
  (Hunset : businessHoursValue (vars w) = None)
  (Hanswer : api (List.length (probeLog w)) = Normal (JBool b))
  (Hraises : widget (page w) = NoButton true) :
  let w' := exec (tryApiCheck api k) w in
  ((S k < maxAttempts)%nat ->
   resolved w' = (Some b, Some "api") /\
   timers w' =
   insert_timer (mkTimer (now w + nth (S k) delays 0) (S k)) (timers w)) /\
  ((maxAttempts <= S k)%nat ->
   resolved w' = (Some true, Some "default_fallback") /\
   timers w' = timers w).
Proof.
  cbv zeta. unfold exec.
  rewrite (tryApiCheck_unresolved api k w Hunset), Hanswer.
  assert (Hthrow : forall b0 s w0,
            widget (page w0) = NoButton true ->
            setBusinessHours (JBool b0) s w0 =
            (Thrown, with_vars (set_resolved b0 s) w0)).
  { intros b0 s w0 H0. unfold setBusinessHours, bind, modify.
    now rewrite (render_throws (JStr s) (with_vars (set_resolved b0 s) w0) H0). }
  rewrite (Hthrow b "api" (log_probe w) Hraises).
  split; intros Hk.
  - apply Nat.ltb_lt in Hk. rewrite Hk. cbn. auto.
  - apply Nat.ltb_ge in Hk. rewrite Hk. unfold bind.
    rewrite (Hthrow true "default_fallback"
               (with_vars (set_resolved b "api") (log_probe w)) Hraises).
    cbn. auto.
Qed.

Lemma raising_render_turns_answer_into_failure_witness :
  resolved (exec (tryApiCheck (fun _ => Normal (JBool false)) 4)
                 (initial_world 0 15000 page_api_without_button))
  = (Some true, Some "default_fallback").
Proof.
  exact (proj1 (proj2
           (raising_render_turns_answer_into_failure
              (fun _ => Normal (JBool false)) 4
              (initial_world 0 15000 page_api_without_button) false
              eq_refl eq_refl eq_refl)
           (le_n 5))).
Defined.

(** ** Reactive failure monitor: which updates demote *)

(** X9. For a session-status update with status 'Ended' the demotion
    flag afterwards is the old flag, or-ed with the three 'Ended'
    patterns: reason 'NoAgentsAvailable', a routing result whose
    [agentsAvailable] or [success] is strictly [false], or a missing
    (falsy) [agentInfo].  So an ended session that had an agent, no
    failing routing result and another reason never demotes, and a
    matching one makes the next render hide the chat button. *)
Theorem ended_update_demotes_by_pattern d w
  (Hended : status d = JStr "Ended") :
  let w' := exec (onEmbeddedMessagingSessionStatusUpdate d) w in
  noAgentsAvailable (vars w') =
    (noAgentsAvailable (vars w)
     || strict_eq_str (reason d) "NoAgentsAvailable"
     || match routingResult d with
        | Some r => strict_eq_false (agentsAvailable r) || strict_eq_false (success r)
        | None => false
        end
     || negb (truthy (agentInfo d))) /\
  (noAgentsAvailable (vars w') = true ->
   forall r, chatShown (exec (updateChatAvailability r) w') = false).
Proof.
  cbv zeta. split.
  - unfold exec. rewrite session_update_effect.
    unfold pattern_reason, pattern_routing, pattern_waiting, pattern_no_agent.
    rewrite Hended. cbn.
    destruct (strict_eq_str (reason d) "NoAgentsAvailable");
      destruct (routingResult d) as [r|];
      try destruct (strict_eq_false (agentsAvailable r));
      try destruct (strict_eq_false (success r));
      destruct (truthy (agentInfo d));
      destruct (noAgentsAvailable (vars w)) eqn:Hna; cbn; auto.
  - intros Hflag r. now apply render_demoted.
Qed.

Lemma ended_update_demotes_by_pattern_witness :
  noAgentsAvailable
    (vars (exec (onEmbeddedMessagingSessionStatusUpdate
                   (mkSessionDetail (JStr "Ended") (JStr "UserEnded")
                                    (Some (mkRoutingResult (JBool true) (JBool true)))
                                    JObj))
                (initial_world 0 0 page_button_ready))) = false.
Proof.
  exact (proj1 (ended_update_demotes_by_pattern
                  (mkSessionDetail (JStr "Ended") (JStr "UserEnded")
                                   (Some (mkRoutingResult (JBool true) (JBool true)))
                                   JObj)
                  (initial_world 0 0 page_button_ready) eq_refl)).
Defined.

(** X10. The waiting threshold is exclusive and soft: a 'Waiting'
    update observed at most 60000 ms after the waiting start changes
    no script variable, whatever its other fields are. *)
Theorem waiting_within_threshold_changes_nothing api w t d
  (Hstatus : status d = JStr "Waiting")
  (Hwait : t - sessionWaitingStartTime (vars w) <= 60000) :
  vars (step api w (Deliver t (SessionStatusUpdate d))) = vars w.
Proof.
  cbn [step handle]. unfold exec. rewrite session_update_effect.
  unfold pattern_reason, pattern_routing, pattern_waiting, pattern_no_agent.
  rewrite Hstatus. cbn.
  assert (Hc : (60000 <? t - sessionWaitingStartTime (vars w)) = false)
    by (apply Z.ltb_ge; lia).
  rewrite Hc. reflexivity.
Qed.

Lemma waiting_within_threshold_changes_nothing_witness :
  vars (step api_undefined (initial_world 0 0 page_button_ready)
             (Deliver 60000 (SessionStatusUpdate (bare_status "Waiting"))))
  = vars (initial_world 0 0 page_button_ready).
Proof.
  exact (waiting_within_threshold_changes_nothing api_undefined
           (initial_world 0 0 page_button_ready) 60000 (bare_status "Waiting")
           eq_refl ltac:(cbn; lia)).
Defined.

(** X11. A session-status update whose status is none of 'Ended',
    'Waiting' and 'Active' (a missing status included) matches no
    pattern: the listener completes and changes nothing. *)
Theorem unknown_status_changes_nothing d w
  (Hended : strict_eq_str (status d) "Ended" = false)
  (Hwaiting : strict_eq_str (status d) "Waiting" = false)
  (Hactive : strict_eq_str (status d) "Active" = false) :
  onEmbeddedMessagingSessionStatusUpdate d w = (Normal tt, w).
Proof.
  rewrite session_update_effect.
  unfold pattern_reason, pattern_routing, pattern_waiting, pattern_no_agent.
  rewrite Hended, Hwaiting, Hactive. reflexivity.
Qed.

Lemma unknown_status_changes_nothing_witness :
  onEmbeddedMessagingSessionStatusUpdate
    (mkSessionDetail JUndefined (JStr "NoAgentsAvailable") None JUndefined)
    (initial_world 0 0 page_button_ready)
  = (Normal tt, initial_world 0 0 page_button_ready).
Proof.
  exact (unknown_status_changes_nothing
           (mkSessionDetail JUndefined (JStr "NoAgentsAvailable") None JUndefined)
           (initial_world 0 0 page_button_ready) eq_refl eq_refl eq_refl).
Defined.

(** ** How the demotion flag and the Resolved State combine *)

Lemma demoted_signal_renders_offline b source w :
  noAgentsAvailable (vars w) = true ->
  widget (page w) <> NoButton true ->
  source <> "" ->
  let w' := exec (setBusinessHours (JBool b) source) w in
  chatShown w' = false /\ offlineVisible w' = true /\
  offlineMessage (page w') =
  Some "All agents are currently assisting other customers.".
Proof.
  intros Hna Hw Hs. cbv zeta. unfold exec.
  rewrite (setBusinessHours_accepts b source w Hw). cbn [snd].
  assert (Ht : truthy (JStr source) = true).
  { cbn. destruct (String.eqb_spec source ""); [ contradiction | reflexivity ]. }
  js_unfold. unfold chatShown, offlineVisible.
  destruct w as [[bv bs iw na st] [x os om] t ts pl]; cbn in *. subst na.
  rewrite andb_false_r. cbn.
  destruct x as [|[|]|v]; try congruence; cbn; rewrite Ht; cbn; auto.
Qed.

(** X12. The demotion flag dominates the Resolved State.  While it is
    set, a business-hours signal, even period-started, still updates
    the Resolved State but its render keeps the chat button hidden,
    shows the offline affordance and sets the all-agents-busy message
    (the hosted toggle not raising). *)
Theorem demotion_overrides_business_hours api w t b
  (Hdemoted : noAgentsAvailable (vars w) = true)
  (Hrender : widget (page w) <> NoButton true) :
  let after := fun e => step api w (Deliver t e) in
  forall e,
    e = WithinBusinessHours (Some (JBool b)) \/ e = BusinessHoursStarted \/
    e = BusinessHoursEnded ->
    businessHoursValue (vars (after e)) <> None /\
    chatShown (after e) = false /\
    offlineVisible (after e) = true /\
    offlineMessage (page (after e)) =
    Some "All agents are currently assisting other customers.".
Proof.
  cbv zeta. intros e He.
  assert (Hgen : forall b0 source,
            source <> "" ->
            let w' := exec (bind (setBusinessHours (JBool b0) source) (fun _ => ret tt))
                           (with_now t w) in
            businessHoursValue (vars w') <> None /\
            chatShown w' = false /\ offlineVisible w' = true /\
            offlineMessage (page w') =
            Some "All agents are currently assisting other customers.").
  { intros b0 source Hs. cbv zeta.
    pose proof (demoted_signal_renders_offline b0 source (with_now t w)
                  Hdemoted Hrender Hs) as H.
    pose proof (setBusinessHours_bool_vars b0 source (with_now t w)) as Hv.
    unfold exec, bind, ret in *.
    destruct (setBusinessHours (JBool b0) source (with_now t w)) as [[?|] w1];
      cbn [snd] in *; (split; [ rewrite Hv; discriminate | exact H ]). }
  destruct He as [-> | [-> | ->]]; cbn [step handle].
  - apply (Hgen b "event"). discriminate.
  - apply (Hgen true "hours_started_event"). discriminate.
  - apply (Hgen false "hours_ended_event"). discriminate.
Qed.

Lemma demotion_overrides_business_hours_witness :
  chatShown (step api_undefined
                  (with_vars (set_noAgentsAvailable true)
                             (initial_world 0 0 page_button_ready))
                  (Deliver 9 BusinessHoursStarted)) = false.
Proof.
  exact (proj1 (proj2
           (demotion_overrides_business_hours api_undefined
              (with_vars (set_noAgentsAvailable true)
                         (initial_world 0 0 page_button_ready))
              9 true eq_refl ltac:(discriminate)
              BusinessHoursStarted (or_intror (or_introl eq_refl))))).
Defined.

(** X13. Reactive promotion.  With the chat button in the page, an
    'Active' session-status update followed by a render shows the chat
    button exactly when the availability variable is truthy, whatever
    the demotion flag was before, and the offline affordance is shown
    in the opposite case only. *)
Theorem active_update_restores_chat api w t d v reason
  (Hactive : status d = JStr "Active")
  (Hbutton : widget (page w) = Button v) :
  let w1 := step api w (Deliver t (SessionStatusUpdate d)) in
  let w2 := exec (updateChatAvailability reason) w1 in
  chatShown w2 = truthy (isWithinBusinessHours (vars w)) /\
  offlineVisible w2 = negb (truthy (isWithinBusinessHours (vars w))).
Proof.
  cbv zeta. cbn [step handle]. unfold exec at 2 4.
  rewrite session_update_effect, Hactive. cbn [strict_eq_str String.eqb Ascii.eqb Bool.eqb snd].
  destruct (render_with_button reason
              (with_vars (set_noAgentsAvailable false) (with_now t w)) v Hbutton)
    as (_ & Hchat & Hoff).
  unfold exec. rewrite Hchat, Hoff. cbn. now rewrite andb_true_r.
Qed.

Lemma active_update_restores_chat_witness :
  chatShown
    (exec (updateChatAvailability (JStr "agent_connected"))
          (step api_undefined
                (with_vars (set_noAgentsAvailable true)
                           (initial_world 0 0 page_button_ready))
                (Deliver 3 (SessionStatusUpdate (bare_status "Active")))))
  = true.
Proof.
  exact (proj1 (active_update_restores_chat api_undefined
                  (with_vars (set_noAgentsAvailable true)
                             (initial_world 0 0 page_button_ready))
                  3 (bare_status "Active") false (JStr "agent_connected")
                  eq_refl eq_refl)).
Defined.

(** ** The single API check of the four-layer revision *)

Lemma singleApiCheck_unresolved api w :
  businessHoursValue (vars w) = None ->
  singleApiCheck api w =
  match
    match api (List.length (probeLog w)) with
    | Normal v => setBusinessHours v "api" (log_probe w)
    | Thrown => (Thrown, log_probe w)
    end
  with
  | (Normal true, w1) => (Normal tt, w1)
  | (_, w1) =>
      bind (setBusinessHours (JBool true) "default_fallback") (fun _ => ret tt) w1
  end.
Proof.
  intros Hv. unfold singleApiCheck. unfold bind at 1, get. rewrite Hv.
  unfold bind at 1. unfold try_catch, call_isWithinBusinessHours.
  unfold bind at 1.
  destruct (api (List.length (probeLog w))) as [v|]; [ | reflexivity ].
  destruct (setBusinessHours v "api" (log_probe w)) as [[[|]|] w1]; reflexivity.
Qed.

Lemma fallback_after_failure w1 :
  let r := bind (setBusinessHours (JBool true) "default_fallback")
                (fun _ => ret tt) w1 in
  resolved (snd r) = (Some true, Some "default_fallback") /\
  probeLog (snd r) = probeLog w1.
Proof.
  cbv zeta. unfold resolved. rewrite setBusinessHours_then_ret_vars.
  pose proof (setBusinessHours_frame (JBool true) "default_fallback" w1)
    as (_ & _ & Hp).
  unfold exec, bind, ret in *.
  destruct (setBusinessHours (JBool true) "default_fallback" w1) as [[?|] w2];
    cbn in *; auto.
Qed.

(** The callback from an unset state: one query, then either the
    answer or the default. *)
Lemma singleApiCheck_result api w :
  businessHoursValue (vars w) = None ->
  let w' := exec (singleApiCheck api) w in
  probeLog w' = now w :: probeLog w /\
  (probe_fails (api (List.length (probeLog w))) = true ->
   resolved w' = (Some true, Some "default_fallback")) /\
  (forall b,
     api (List.length (probeLog w)) = Normal (JBool b) ->
     (widget (page w) <> NoButton true -> resolved w' = (Some b, Some "api")) /\
     (widget (page w) = NoButton true ->
      resolved w' = (Some true, Some "default_fallback"))).
Proof.
  intros Hv. cbv zeta. unfold exec.
  rewrite (singleApiCheck_unresolved api w Hv).
  destruct (api (List.length (probeLog w))) as [v|] eqn:Hapi.
  - destruct (is_boolean v) eqn:Hb.
    + destruct v; try discriminate.
      assert (Hw : widget (page w) = NoButton true \/ widget (page w) <> NoButton true).
      { destruct (widget (page w)) as [|[|]|?]; auto; right; discriminate. }
      destruct Hw as [Hw | Hw].
      * assert (Hthrow : setBusinessHours (JBool b) "api" (log_probe w) =
                         (Thrown, with_vars (set_resolved b "api") (log_probe w))).
        { unfold setBusinessHours, bind, modify.
          now rewrite (render_throws (JStr "api")
                         (with_vars (set_resolved b "api") (log_probe w)) Hw). }
        rewrite Hthrow.
        destruct (fallback_after_failure
                    (with_vars (set_resolved b "api") (log_probe w))) as (Hr & Hp).
        rewrite Hp, Hr.
        split; [ reflexivity | ].
        split; [ intros _; reflexivity | ].
        intros b' Hb'. split; [ intros Hne; contradiction | intros _; reflexivity ].
      * rewrite (setBusinessHours_accepts b "api" (log_probe w) Hw).
        destruct (updateChatAvailability_frame (JStr "api")
                    (with_vars (set_resolved b "api") (log_probe w)))
          as (Hvars & _ & _ & Hp).
        cbn [snd]. unfold resolved. rewrite Hvars, Hp.
        split; [ reflexivity | ].
        split; [ cbn; discriminate | ].
        intros b' Hb'. injection Hb' as <-.
        split; [ intros _; reflexivity | intros He; contradiction ].
    + rewrite (setBusinessHours_non_boolean v "api" (log_probe w) Hb).
      destruct (fallback_after_failure (log_probe w)) as (Hr & Hp).
      rewrite Hp, Hr.
      split; [ reflexivity | ].
      split; [ intros _; reflexivity | ].
      intros b' Hb'. injection Hb' as ->. discriminate.
  - destruct (fallback_after_failure (log_probe w)) as (Hr & Hp).
    rewrite Hp, Hr.
    split; [ reflexivity | ].
    split; [ intros _; reflexivity | ].
    intros b' Hb'. discriminate.
Qed.

(** X14. The single check always decides.  Whatever the availability
    API does, after the callback the Resolved State is set and the API
    was queried at most once; if the state was already set the
    callback changes nothing.  From an unset state, a failing query
    resolves to the fail-open default, and a boolean answer, the
    render not throwing, resolves to that answer with source 'api'. *)
Theorem single_check_always_resolves api w :
  let w' := exec (singleApiCheck api) w in
  businessHoursValue (vars w') <> None /\
  (List.length (probeLog w') <= S (List.length (probeLog w)))%nat /\
  (businessHoursValue (vars w) <> None -> w' = w) /\
  (businessHoursValue (vars w) = None ->
   probe_fails (api (List.length (probeLog w))) = true ->
   resolved w' = (Some true, Some "default_fallback")) /\
  (forall b,
     businessHoursValue (vars w) = None ->
     api (List.length (probeLog w)) = Normal (JBool b) ->
     widget (page w) <> NoButton true ->
     resolved w' = (Some b, Some "api")).
Proof.
  cbv zeta.
  destruct (businessHoursValue (vars w)) as [b0|] eqn:Hv.
  - assert (Hid : exec (singleApiCheck api) w = w).
    { unfold exec, singleApiCheck, bind, get. now rewrite Hv. }
    rewrite Hid, Hv.
    split; [ discriminate | ].
    split; [ lia | ].
    split; [ reflexivity | ].
    split; [ discriminate | ].
    intros b Hb. discriminate.
  - destruct (singleApiCheck_result api w Hv) as (Hp & Hfail & Hans).
    split.
    + destruct (api (List.length (probeLog w))) as [v|] eqn:Hapi.
      * destruct (is_boolean v) eqn:Hb.
        -- destruct v; try discriminate.
           destruct (Hans b eq_refl) as (H1 & H2).
           assert (Hw : widget (page w) = NoButton true \/
                        widget (page w) <> NoButton true).
           { destruct (widget (page w)) as [|[|]|?]; auto; right; discriminate. }
           unfold resolved in *.
           destruct Hw as [Hw | Hw];
             [ specialize (H2 Hw) | specialize (H1 Hw) ]; congruence.
        -- assert (Hf : probe_fails (Normal v) = true) by (cbn; now rewrite Hb).
           specialize (Hfail Hf). unfold resolved in Hfail. congruence.
      * specialize (Hfail eq_refl). unfold resolved in Hfail. congruence.
    + split; [ rewrite Hp; cbn; lia | ].
      split; [ intros Hne; congruence | ].
      split; [ intros _; exact Hfail | ].
      intros b _ Hb Hw. now apply (Hans b Hb).
Qed.

Lemma single_check_always_resolves_witness :
  resolved (exec (singleApiCheck api_raising)
                 (initial_world 0 2500 page_button_ready))
  = (Some true, Some "default_fallback").
Proof.
  exact (proj1 (proj2 (proj2 (proj2
           (single_check_always_resolves api_raising
              (initial_world 0 2500 page_button_ready)))))
         eq_refl eq_refl).
Defined.

(** ** The fix of the undefined snapshot value *)

(** X15. The fix of the undefined business-hours value.  With the chat
    button in the page and the demotion flag clear, a snapshot event
    whose value is [undefined] made the listener before the fix hide
    the chat button and show the offline affordance; the listener
    after the fix shows the chat button and hides the offline
    affordance.  For every other value both listeners do exactly the
    same, so a [null] still hides the chat button; and both record
    that a business-hours event fired, even when the payload is
    missing and the read raises. *)
Theorem undefined_snapshot_fix l v
  (Hbutton : widget (page (legacy_world l)) = Button v)
  (Hclear : noAgentsAvailable (vars (legacy_world l)) = false) :
  let before := snd (onWithinBusinessHours_before_fix (Some JUndefined) l) in
  let after := snd (onWithinBusinessHours_after_fix (Some JUndefined) l) in
  (chatShown (legacy_world before) = false /\
   offlineVisible (legacy_world before) = true) /\
  (chatShown (legacy_world after) = true /\
   offlineVisible (legacy_world after) = false) /\
  (forall x, x <> JUndefined ->
     onWithinBusinessHours_after_fix (Some x) l =
     onWithinBusinessHours_before_fix (Some x) l) /\
  chatShown (legacy_world (snd (onWithinBusinessHours_after_fix (Some JNull) l)))
    = false /\
  (forall detail,
     businessHoursEventFired (snd (onWithinBusinessHours_after_fix detail l)) = true /\
     businessHoursEventFired (snd (onWithinBusinessHours_before_fix detail l)) = true).
Proof.
  assert (Hrender : forall x,
            let w1 := with_vars (set_isWithinBusinessHours x) (legacy_world l) in
            let r := legacy_run
                       (modify (with_vars (set_isWithinBusinessHours x)) ;;
                        updateChatAvailability (JStr "business_hours_event"))
                       (mkLegacyPage true (legacy_world l)) in
            chatShown (legacy_world (snd r)) = truthy x /\
            offlineVisible (legacy_world (snd r)) = negb (truthy x) /\
            businessHoursEventFired (snd r) = true).
  { intros x. cbv zeta.
    destruct (render_with_button (JStr "business_hours_event")
                (with_vars (set_isWithinBusinessHours x) (legacy_world l)) v Hbutton)
      as (_ & Hchat & Hoff).
    cbn [vars with_vars set_isWithinBusinessHours isWithinBusinessHours
         noAgentsAvailable] in Hchat, Hoff.
    rewrite Hclear, andb_true_r in Hchat, Hoff.
    unfold legacy_run, bind, modify. cbn [legacy_world].
    destruct (updateChatAvailability (JStr "business_hours_event") _) as [o w1].
    cbn in *. auto. }
  cbv zeta.
  split; [ | split; [ | split; [ | split ] ] ].
  - destruct (Hrender JUndefined) as (Hc & Ho & _). cbn in Hc, Ho. auto.
  - destruct (Hrender (JBool true)) as (Hc & Ho & _). cbn in Hc, Ho. auto.
  - intros x Hx. destruct x; try reflexivity. contradiction.
  - destruct (Hrender JNull) as (Hc & _). exact Hc.
  - intros [x|]; [ | cbn; auto ].
    split.
    + destruct (Hrender match x with JUndefined => JBool true | _ => x end)
        as (_ & _ & Hf). exact Hf.
    + destruct (Hrender x) as (_ & _ & Hf). exact Hf.
Qed.

Lemma undefined_snapshot_fix_witness :
  chatShown (legacy_world
               (snd (onWithinBusinessHours_after_fix (Some JUndefined)
                       (mkLegacyPage false (initial_world 0 0 page_button_ready)))))
  = true.
Proof.
  exact (proj1 (proj1 (proj2
           (undefined_snapshot_fix
              (mkLegacyPage false (initial_world 0 0 page_button_ready))
              false eq_refl eq_refl)))).
Defined.

(** ** The cleaned-up renderer *)

(** X16. The cleaned-up [updateChatAvailability] keeps the two buttons
    mutually exclusive in every state of the document: after it, the
    chat button and the Leave a Message button are never both shown,
    whether it completes or throws.  When both elements exist it
    completes and shows exactly one of them, the chat button when
    [isWithinBusinessHours && !noAgentsAvailable] is truthy. *)
Theorem cleanup_render_mutually_exclusive reason button w :
  let r := updateChatAvailability_cleanup reason (button, w) in
  let button' := fst (snd r) in
  let w' := snd (snd r) in
  chatShown w' && leaveMessageShown button' = false /\
  (forall v shown,
     widget (page w) = Button v -> button = Some shown ->
     let available :=
       truthy (isWithinBusinessHours (vars w)) && negb (noAgentsAvailable (vars w)) in
     fst r = Normal tt /\
     chatShown w' = available /\
     leaveMessageShown button' = negb available).
Proof.
  cbv zeta. unfold updateChatAvailability_cleanup, showChatButton, hideChatButton,
    utilAPI_toggle, utilAPI_available, bind, get, ret, chatShown.
  destruct w as [[bv bs iw na st] [x os om] t ts pl]. cbn.
  split.
  - destruct (truthy iw && negb na); destruct x as [|[|]|v]; destruct button as [[|]|];
      cbn; reflexivity.
  - intros v shown -> ->. destruct (truthy iw && negb na); cbn; auto.
Qed.

Lemma cleanup_render_mutually_exclusive_witness :
  leaveMessageShown
    (fst (snd (updateChatAvailability_cleanup JNull
                 (Some false,
                  with_vars (set_noAgentsAvailable true)
                            (initial_world 0 0 page_button_ready))))) = true.
Proof.
  exact (proj2 (proj2 (proj2
           (cleanup_render_mutually_exclusive JNull (Some false)
              (with_vars (set_noAgentsAvailable true)
                         (initial_world 0 0 page_button_ready)))
           false false eq_refl eq_refl))).
Defined.

(** ** Authentication mode and hidden pre-chat fields *)

Lemma toggleAuthMode_accepted a checked badge description :
  authModeToggle a = Some checked ->
  authModeBadge a = Some badge ->
  authModeDescription a = Some description ->
  prechatAPI a = PrechatReady false ->
  hiddenFieldCalls (snd (toggleAuthMode a)) =
  getHiddenFieldsForMode checked (prechatData a) :: hiddenFieldCalls a.
Proof.
  intros Htoggle Hbadge Hdescription Hapi.
  unfold toggleAuthMode. rewrite Htoggle. cbn. rewrite Hbadge. cbn.
  rewrite Hdescription. cbn. rewrite Hapi. reflexivity.
Qed.

(** X17. With its three elements in the document, [toggleAuthMode]
    always completes: the mode variable takes the state of the
    checkbox, the badge names that mode, the pre-chat data are left
    alone, and the hidden fields of the mode are handed to the hosted
    API exactly when that API is loaded and accepts them; when it
    raises, the exception is caught and nothing is handed over. *)
Theorem toggleAuthMode_follows_checkbox a checked badge description
  (Htoggle : authModeToggle a = Some checked)
  (Hbadge : authModeBadge a = Some badge)
  (Hdescription : authModeDescription a = Some description) :
  let r := toggleAuthMode a in
  fst r = Normal tt /\
  isAuthenticatedMode (snd r) = checked /\
  option_map textContent (authModeBadge (snd r)) =
    Some (if checked then "Authenticated" else "Unauthenticated") /\
  prechatData (snd r) = prechatData a /\
  (prechatAPI a = PrechatReady false ->
   hiddenFieldCalls (snd r) =
   getHiddenFieldsForMode checked (prechatData a) :: hiddenFieldCalls a) /\
  (prechatAPI a <> PrechatReady false ->
   hiddenFieldCalls (snd r) = hiddenFieldCalls a).
Proof.
  cbv zeta. unfold toggleAuthMode. rewrite Htoggle. cbn. rewrite Hbadge. cbn.
  rewrite Hdescription. cbn.
  destruct (prechatAPI a) as [|[|]]; destruct checked; cbn;
    repeat split; try reflexivity; try discriminate; intros H; congruence.
Qed.

Lemma toggleAuthMode_follows_checkbox_witness :
  hiddenFieldCalls (snd (toggleAuthMode (auth_page true true))) = [].
Proof.
  exact (proj2 (proj2 (proj2 (proj2 (proj2
           (toggleAuthMode_follows_checkbox (auth_page true true) true
              (mkBadge "Unauthenticated" "auth-mode-badge unauthenticated")
              "Sending only chat_source__c (guest user)"
              eq_refl eq_refl eq_refl)))))
         ltac:(discriminate)).
Defined.

(** X18. What reaches the hosted API after a toggle that it accepts:
    the chat source in both modes, with the value of the pre-chat
    data; in unauthenticated mode nothing else, whatever the pre-chat
    data hold; in authenticated mode six fields, 'email' and
    'email_custom' both carrying the e-mail address. *)
Theorem toggled_fields_by_mode a checked badge description
  (Htoggle : authModeToggle a = Some checked)
  (Hbadge : authModeBadge a = Some badge)
  (Hdescription : authModeDescription a = Some description)
  (Hapi : prechatAPI a = PrechatReady false) :
  let sent := hd [] (hiddenFieldCalls (snd (toggleAuthMode a))) in
  field "chat_source__c" sent = Some (chat_source__c (prechatData a)) /\
  (checked = false ->
   sent = [("chat_source__c", chat_source__c (prechatData a))] /\
   forall key, key <> "chat_source__c" -> field key sent = None) /\
  (checked = true ->
   List.length sent = 6%nat /\
   field "email" sent = Some (email (prechatData a)) /\
   field "email_custom" sent = Some (email (prechatData a)) /\
   field "FirstName" sent = Some (firstName (prechatData a)) /\
   field "LastName" sent = Some (lastName (prechatData a)) /\
   field "Subject" sent = Some (subject (prechatData a))).
Proof.
  cbv zeta.
  rewrite (toggleAuthMode_accepted a checked badge description
             Htoggle Hbadge Hdescription Hapi). cbn [hd].
  split; [ destruct checked; reflexivity | ].
  split; intros ->.
  - split; [ reflexivity | ].
    intros key Hkey. unfold getHiddenFieldsForMode, field.
    destruct (String.eqb_spec "chat_source__c" key); [ congruence | reflexivity ].
  - cbn. repeat split.
Qed.

Lemma toggled_fields_by_mode_witness :
  hd [] (hiddenFieldCalls (snd (toggleAuthMode (auth_page false false))))
  = [("chat_source__c", "Website")].
Proof.
  exact (proj1 (proj1 (proj2
           (toggled_fields_by_mode (auth_page false false) false
              (mkBadge "Unauthenticated" "auth-mode-badge unauthenticated")
              "Sending only chat_source__c (guest user)"
              eq_refl eq_refl eq_refl eq_refl))
         eq_refl)).
Defined.

(** X19. [toggleAuthMode] reads its elements without a null test.
    With the checkbox missing it throws before anything changes; with
    the checkbox present but the badge or the description missing it
    throws after the mode variable has taken the state of the
    checkbox and before the hosted API is told, so the mode and the
    fields held by the hosted API can differ. *)
Theorem toggleAuthMode_missing_element a :
  (authModeToggle a = None -> toggleAuthMode a = (Thrown, a)) /\
  (forall checked,
     authModeToggle a = Some checked ->
     authModeBadge a = None \/ authModeDescription a = None ->
     fst (toggleAuthMode a) = Thrown /\
     isAuthenticatedMode (snd (toggleAuthMode a)) = checked /\
     hiddenFieldCalls (snd (toggleAuthMode a)) = hiddenFieldCalls a).
Proof.
  split.
  - intros H. unfold toggleAuthMode. now rewrite H.
  - intros checked Htoggle Hmissing. unfold toggleAuthMode. rewrite Htoggle. cbn.
    destruct (authModeBadge a) as [b|] eqn:Hb; cbn.
    + destruct Hmissing as [Hm | Hm]; [ discriminate | ].
      rewrite Hm. cbn. auto.
    + auto.
Qed.

Lemma toggleAuthMode_missing_element_witness :
  isAuthenticatedMode
    (snd (toggleAuthMode
            (mkAuthPage false default_prechatData (Some true) None
                        (Some "Sending only chat_source__c (guest user)")
                        (PrechatReady false) []))) = true.
Proof.
  exact (proj1 (proj2
           (proj2 (toggleAuthMode_missing_element
                     (mkAuthPage false default_prechatData (Some true) None
                                 (Some "Sending only chat_source__c (guest user)")
                                 (PrechatReady false) []))
                  true eq_refl (or_introl eq_refl)))).
Defined.

(** ** The two-second fallback of the earlier revision *)

Lemma legacy_render_syncs reason x fired w v :
  widget (page w) = Button v ->
  let r := legacy_run (modify (with_vars (set_isWithinBusinessHours x)) ;;
                       updateChatAvailability reason)
                      (mkLegacyPage fired w) in
  businessHoursEventFired (snd r) = fired /\
  in_sync (legacy_world (snd r)) /\
  (exists v', widget (page (legacy_world (snd r))) = Button v') /\
  noAgentsAvailable (vars (legacy_world (snd r))) = noAgentsAvailable (vars w).
Proof.
  intros Hw. cbv zeta. unfold legacy_run, in_sync, bind, modify. cbn [legacy_world].
  set (w1 := with_vars (set_isWithinBusinessHours x) w).
  destruct (render_with_button reason w1 v Hw) as (_ & Hchat & Hoff).
  destruct (updateChatAvailability_frame reason w1) as (Hv & _).
  unfold exec in Hv.
  assert (Hbtn : exists v', widget (page (snd (updateChatAvailability reason w1))) = Button v').
  { clear Hchat Hoff Hv. subst w1. js_unfold.
    destruct w as [[bv bs iw na st] [xw os om] t ts pl]; cbn in *. subst xw.
    cbn.
    repeat match goal with
           | |- context [if ?b then _ else _] => destruct b; cbn
           end; eauto. }
  destruct (updateChatAvailability reason w1) as [o w2]. cbn in *.
  rewrite Hv. auto.
Qed.

Lemma legacy_deliver_syncs e l v :
  has_detail e = true ->
  widget (page (legacy_world l)) = Button v ->
  businessHoursEventFired (legacy_deliver l e) = true /\
  in_sync (legacy_world (legacy_deliver l e)) /\
  (exists v', widget (page (legacy_world (legacy_deliver l e))) = Button v') /\
  noAgentsAvailable (vars (legacy_world (legacy_deliver l e))) =
  noAgentsAvailable (vars (legacy_world l)).
Proof.
  intros He Hw. unfold legacy_deliver.
  destruct e as [[x|]| |]; try discriminate; cbn [legacy_handle];
    unfold onWithinBusinessHours_before_fix;
    eapply legacy_render_syncs; exact Hw.
Qed.

Lemma legacy_events_sync events l v :
  forallb has_detail events = true ->
  widget (page (legacy_world l)) = Button v ->
  let l' := fold_left legacy_deliver events l in
  (events = [] /\ l' = l) \/
  (businessHoursEventFired l' = true /\ in_sync (legacy_world l') /\
   noAgentsAvailable (vars (legacy_world l')) =
   noAgentsAvailable (vars (legacy_world l))).
Proof.
  revert l v.
  induction events as [|e events IH]; intros l v Hd Hw; cbn [fold_left].
  - left. auto.
  - right. cbn [forallb] in Hd. apply andb_prop in Hd as (He & Hd).
    destruct (legacy_deliver_syncs e l v He Hw) as (Hf & Hs & (v' & Hw') & Hna).
    destruct (IH (legacy_deliver l e) v' Hd Hw') as [(-> & Heq) | (Hf' & Hs' & Hna')].
    + cbn [fold_left]. auto.
    + rewrite Hna' , Hna. auto.
Qed.

(** X20. The two-second fallback of the earlier revision.  On a fresh
    page with the chat button present, once the timeout registered by
    the messaging-ready listener has run, the two affordances show what
    the script variables say and the demotion flag is clear, whatever
    business-hours events (each with its payload) arrived in between:
    either one of them rendered, or the timeout did.  With no event at
    all the chat button is shown exactly when the availability
    variable, [true] by default, is truthy. *)
Theorem legacy_timeout_renders_when_no_event_did l v events
  (Hbutton : widget (page (legacy_world l)) = Button v)
  (Hfresh : businessHoursEventFired l = false)
  (Hdetail : forallb has_detail events = true) :
  let ready := snd (legacy_onEmbeddedMessagingReady l) in
  let final := snd (legacy_readyTimeout (fold_left legacy_deliver events ready)) in
  in_sync (legacy_world final) /\
  noAgentsAvailable (vars (legacy_world final)) = false /\
  (events = [] ->
   chatShown (legacy_world final) =
   truthy (isWithinBusinessHours (vars (legacy_world l)))).
Proof.
  cbv zeta. unfold legacy_onEmbeddedMessagingReady. cbn [snd].
  set (ready := mkLegacyPage _ _).
  assert (Hw : widget (page (legacy_world ready)) = Button v) by exact Hbutton.
  assert (Htimeout :
    in_sync (legacy_world (snd (legacy_readyTimeout ready))) /\
    noAgentsAvailable (vars (legacy_world (snd (legacy_readyTimeout ready)))) = false /\
    chatShown (legacy_world (snd (legacy_readyTimeout ready))) =
    truthy (isWithinBusinessHours (vars (legacy_world l)))).
  { unfold legacy_readyTimeout. subst ready. cbn [businessHoursEventFired].
    rewrite Hfresh. unfold legacy_run. cbn [legacy_world].
    set (w1 := with_vars (set_noAgentsAvailable false) (legacy_world l)).
    destruct (render_with_button (JStr "no_business_hours_configured") w1 v Hbutton)
      as (_ & Hchat & Hoff).
    destruct (updateChatAvailability_frame (JStr "no_business_hours_configured") w1)
      as (Hv & _).
    unfold exec in Hv. unfold in_sync.
    destruct (updateChatAvailability _ w1) as [o w2]. cbn in *.
    rewrite Hv, Hchat, Hoff. cbn. rewrite andb_true_r. auto. }
  destruct (legacy_events_sync events ready v Hdetail Hw)
    as [(-> & Heq) | (Hf & Hs & Hna)].
  - cbn [fold_left]. destruct Htimeout as (H1 & H2 & H3). auto.
  - unfold legacy_readyTimeout. rewrite Hf. cbn [snd].
    split; [ exact Hs | ]. split; [ rewrite Hna; reflexivity | ].
    intros ->. cbn [fold_left] in Hf. subst ready. cbn in Hf. congruence.
Qed.

Lemma legacy_timeout_renders_when_no_event_did_witness :
  chatShown
    (legacy_world
       (snd (legacy_readyTimeout
               (snd (legacy_onEmbeddedMessagingReady
                       (mkLegacyPage false (initial_world 0 0 page_button_ready)))))))
  = true.
Proof.
  exact (proj2 (proj2
           (legacy_timeout_renders_when_no_event_did
              (mkLegacyPage false (initial_world 0 0 page_button_ready))
              false [] eq_refl eq_refl eq_refl))
         eq_refl).
Defined.

(** The messaging-ready listener of the single-check revision
    registers its timeout 2500 ms ahead, and only while the Resolved
    State is unset. *)
Lemma singleCheck_timeout_due w :
  onEmbeddedMessagingReady_singleCheck w =
  (Normal match businessHoursValue (vars w) with
          | Some _ => None
          | None => Some (now w + 2500)
          end, w).
Proof.
  unfold onEmbeddedMessagingReady_singleCheck, bind, get, ret.
  destruct (businessHoursValue (vars w)); reflexivity.
Qed.
